(** * Polly-API client: a shallow embedding of the HTTP wrappers,
      the pagination driver and the results formatter.

    Sources embedded here:
      - [src/register_user.py]    : [register_user]
      - [src/fetch_polls.py]      : [fetch_polls], [fetch_all_polls]
      - [src/vote_and_results.py] : [cast_vote], [get_poll_results],
                                    [print_poll_results], [get_vote_token]

    Python code is translated into a small state-and-exception monad
    [Py].  The state ([World]) records every HTTP request issued so far and
    every line printed; the network is a collaborator that answers the
    n-th request of a run.  The only unbounded loop ([while True] in
    [fetch_all_polls]) is given fuel, and running out of fuel is kept apart
    from returning. *)

From Stdlib Require Import List ZArith QArith Qfield String Ascii Bool Lia.
From Stdlib Require Import Permutation Sorted DecimalString.
Import ListNotations.

Local Open Scope string_scope.
Local Open Scope Z_scope.

(* ------------------------------------------------------------------ *)
(** ** Python values, as produced by [response.json()] *)
(* ------------------------------------------------------------------ *)

(** JSON text decodes to [None], [bool], [int], [str], [list] and [dict].
    Numbers with a fraction or an exponent (Python [float]) are not
    represented.  A [dict] is kept as its list of items. *)
#[warnings="-register-all"]
Inductive value : Type :=
| VNone
| VBool (b : bool)
| VInt (n : Z)
| VStr (s : string)
| VList (l : list value)
| VDict (d : list (string * value)).

(** [d.get(k)] on the items of a dict. *)
Fixpoint dict_get (k : string) (d : list (string * value)) : option value :=
  match d with
  | [] => None
  | (k', v) :: d' => if String.eqb k k' then Some v else dict_get k d'
  end.

(** [str(n)] for an [int]. *)
Definition str_int (n : Z) : string := NilZero.string_of_int (Z.to_int n).

(** [needle in haystack] for two [str]. *)
Definition str_contains (needle haystack : string) : bool :=
  match String.index 0 needle haystack with
  | Some _ => true
  | None => false
  end.

(* ------------------------------------------------------------------ *)
(** ** Exceptions *)
(* ------------------------------------------------------------------ *)

(** The exception classes that occur, all below [Exception].
    [JSONDecodeError] is the one [response.json()] raises: in [requests] it
    derives both from [RequestException] and from [json.JSONDecodeError]
    (itself a [ValueError]). *)
Inductive exn_class : Type :=
| RequestException
| HTTPError
| ConnectionError
| Timeout
| JSONDecodeError
| ValueError
| TypeError
| KeyError
| AttributeError
| ZeroDivisionError
| OverflowError
| RecursionError
| OtherException.

(** An exception object: its class and [str(e)]. *)
Record exn : Type := Exn { exn_cls : exn_class; exn_str : string }.

(** [isinstance(e, requests.exceptions.RequestException)] *)
Definition is_RequestException (e : exn) : bool :=
  match exn_cls e with
  | RequestException | HTTPError | ConnectionError | Timeout
  | JSONDecodeError => true
  | _ => false
  end.

(** [isinstance(e, json.JSONDecodeError)] *)
Definition is_JSONDecodeError (e : exn) : bool :=
  match exn_cls e with
  | JSONDecodeError => true
  | _ => false
  end.

(** [isinstance(e, Exception)] *)
Definition is_Exception (e : exn) : bool := true.

(* ------------------------------------------------------------------ *)
(** ** The HTTP collaborator *)
(* ------------------------------------------------------------------ *)

(** The three shapes of call the sources make:
    [requests.get(url, params=...)], [requests.post(url, json=..., headers=...)]
    and [requests.post(url, data=..., headers=...)]. *)
Inductive Request : Type :=
| Get (url : string) (params : list (string * Z))
| PostJson (url : string) (json : value) (headers : list (string * string))
| PostForm (url : string) (data : list (string * string))
           (headers : list (string * string)).

(** A response body either decodes as JSON or makes [response.json()]
    raise with the given message.  [requests] turns the decoder's
    [JSONDecodeError] into its own ([NotJson]) and lets every other
    exception of the decoder through: the plain [ValueError] of an integer
    literal beyond the digit limit of [int] ([IntTooLong]) and the
    [RecursionError] of a body nested too deep ([TooDeep]). *)
Inductive Body : Type :=
| Json (v : value)
| NotJson (err : string)
| IntTooLong (err : string)
| TooDeep (err : string).

Record Response : Type := mkResponse {
  status_code : Z;
  reason : string;
  resp_url : string;
  body : Body
}.

(** What one call into [requests] does: it hands back a response, or it
    raises (connection refused, timeout, ...). *)
Inductive TransportResult : Type :=
| Answered (r : Response)
| Failed (e : exn).

(** The network answers the [n]-th request of a run ([n] counted from 0). *)
Definition Network : Type := nat -> Request -> TransportResult.

(* ------------------------------------------------------------------ *)
(** ** The monad of Python computations *)
(* ------------------------------------------------------------------ *)

Record World : Type := mkWorld {
  sent : list Request;      (* requests issued so far, oldest first *)
  stdout : list string      (* lines printed so far, oldest first *)
}.

Definition world0 : World := mkWorld [] [].

Inductive Result (A : Type) : Type :=
| Returned (a : A)
| Raised (e : exn).
Arguments Returned {A} a.
Arguments Raised {A} e.

Definition Py (A : Type) : Type := World -> Result A * World.

Definition ret {A} (a : A) : Py A := fun w => (Returned a, w).

Definition raise {A} (e : exn) : Py A := fun w => (Raised e, w).

Definition bind {A B} (c : Py A) (k : A -> Py B) : Py B :=
  fun w =>
    match c w with
    | (Returned a, w') => k a w'
    | (Raised e, w') => (Raised e, w')
    end.

Declare Scope py_scope.
Delimit Scope py_scope with py.
Notation "x <- c ;; k" := (bind c (fun x => k))
  (at level 61, c at next level, right associativity) : py_scope.
Notation "c ;;; k" := (bind c (fun _ => k))
  (at level 61, right associativity) : py_scope.

(** [try: c  except <class> as e: h e] *)
Definition try_except {A} (c : Py A) (catches : exn -> bool)
           (h : exn -> Py A) : Py A :=
  fun w =>
    match c w with
    | (Returned a, w') => (Returned a, w')
    | (Raised e, w') => if catches e then h e w' else (Raised e, w')
    end.

(** [print(line)] *)
Definition print (line : string) : Py unit :=
  fun w => (Returned tt, mkWorld (sent w) (stdout w ++ [line])%list).

(** One call into [requests] against the network [net]. *)
Definition requests_send (net : Network) (req : Request) : Py Response :=
  fun w =>
    let w' := mkWorld (sent w ++ [req])%list (stdout w) in
    match net (List.length (sent w)) req with
    | Answered r => (Returned r, w')
    | Failed e => (Raised e, w')
    end.

(** [response.json()] *)
Definition response_json (r : Response) : Py value :=
  match body r with
  | Json v => ret v
  | NotJson err => raise (Exn JSONDecodeError err)
  | IntTooLong err => raise (Exn ValueError err)
  | TooDeep err => raise (Exn RecursionError err)
  end.

(** [response.raise_for_status()] of the [requests] library: it raises
    [HTTPError] for the codes 400..599 and does nothing for any other. *)
Definition http_error_msg (r : Response) : option string :=
  if (400 <=? status_code r) && (status_code r <? 500) then
    Some (str_int (status_code r) ++ " Client Error: " ++ reason r
          ++ " for url: " ++ resp_url r)
  else if (500 <=? status_code r) && (status_code r <? 600) then
    Some (str_int (status_code r) ++ " Server Error: " ++ reason r
          ++ " for url: " ++ resp_url r)
  else None.

Definition raise_for_status (r : Response) : Py unit :=
  match http_error_msg r with
  | Some msg => raise (Exn HTTPError msg)
  | None => ret tt
  end.

Local Open Scope py_scope.

(* ------------------------------------------------------------------ *)
(** ** src/fetch_polls.py *)
(* ------------------------------------------------------------------ *)

(** The request [fetch_polls] issues. *)
Definition polls_request (skip limit : Z) (base_url : string) : Request :=
  Get (base_url ++ "/polls") [("skip", skip); ("limit", limit)].

(** [fetch_polls(skip, limit, base_url)].  The Python function yields a
    [list], or [None] when control falls off the end of the [else] branch
    ([raise_for_status] came back without raising). *)
Definition fetch_polls (net : Network) (skip limit : Z) (base_url : string)
  : Py (option (list value)) :=
  try_except
    (response <- requests_send net (polls_request skip limit base_url) ;;
     if status_code response =? 200 then
       polls_data <- response_json response ;;
       match polls_data with
       | VList polls => ret (Some polls)
       | _ => raise (Exn ValueError
           "Expected a list of polls, but received a different data type")
       end
     else
       raise_for_status response ;;;
       ret None)
    is_RequestException
    (fun e => raise (Exn RequestException ("Request failed: " ++ exn_str e))).

(** The [while True] loop of [fetch_all_polls], with [all_polls] and [skip]
    as loop state.  Each iteration uses one unit of fuel; [None] means the
    fuel ran out before the loop reached a [break]. *)
Fixpoint fetch_all_polls_loop (fuel : nat) (net : Network)
         (base_url : string) (batch_size : Z)
         (all_polls : list value) (skip : Z) (w : World)
  : option (list value * World) :=
  match fuel with
  | O => None
  | S fuel' =>
      match fetch_polls net skip batch_size base_url w with
      | (Returned polls_batch, w1) =>
          match polls_batch with
          | None | Some [] => Some (all_polls, w1)      (* not polls_batch *)
          | Some batch =>
              let all_polls' := (all_polls ++ batch)%list in
              if Z.of_nat (List.length batch) <? batch_size
              then Some (all_polls', w1)
              else fetch_all_polls_loop fuel' net base_url batch_size
                     all_polls' (skip + batch_size) w1
          end
      | (Raised e, w1) =>
          let (_, w2) :=
            print ("Error fetching polls batch starting at " ++ str_int skip
                   ++ ": " ++ exn_str e) w1 in
          Some (all_polls, w2)
      end
  end.

(** [fetch_all_polls(base_url, batch_size)] *)
Definition fetch_all_polls (fuel : nat) (net : Network) (base_url : string)
           (batch_size : Z) (w : World) : option (list value * World) :=
  fetch_all_polls_loop fuel net base_url batch_size [] 0 w.

(* ------------------------------------------------------------------ *)
(** ** src/register_user.py *)
(* ------------------------------------------------------------------ *)

(** [item in container], for a [str] item. *)
Definition py_contains (item : string) (container : value) : Py bool :=
  match container with
  | VDict d =>
      ret (match dict_get item d with Some _ => true | None => false end)
  | VList l =>
      ret (existsb (fun v => match v with
                             | VStr s => String.eqb s item
                             | _ => false
                             end) l)
  | VStr s => ret (str_contains item s)
  | VNone | VBool _ | VInt _ =>
      raise (Exn TypeError "argument is not iterable")
  end.

(** [container[key]], for a [str] key. *)
Definition py_getitem (container : value) (key : string) : Py value :=
  match container with
  | VDict d =>
      match dict_get key d with
      | Some v => ret v
      | None => raise (Exn KeyError key)
      end
  | VList _ => raise (Exn TypeError "list indices must be integers or slices, not str")
  | VStr _ => raise (Exn TypeError "string indices must be integers, not 'str'")
  | VNone | VBool _ | VInt _ =>
      raise (Exn TypeError "object is not subscriptable")
  end.

Section RegisterUser.

(** [repr] of a list or a dict; its exact text plays no part below. *)
Variable py_repr : value -> string.

(** [str(v)], as an f-string interpolates it. *)
Definition py_str (v : value) : string :=
  match v with
  | VStr s => s
  | VNone => "None"
  | VBool true => "True"
  | VBool false => "False"
  | VInt n => str_int n
  | VList _ | VDict _ => py_repr v
  end.

(** [register_user(username, password, base_url)] *)
Definition register_user (net : Network) (username password : string)
           (base_url : string) : Py value :=
  let url := base_url ++ "/register" in
  let data := VDict [("username", VStr username);
                     ("password", VStr password)] in
  let headers := [("Content-Type", "application/json")] in
  try_except
    (response <- requests_send net (PostJson url data headers) ;;
     if status_code response =? 200 then
       response_json response
     else if status_code response =? 400 then
       error_msg <-
         try_except
           (error_data <- response_json response ;;
            found <- py_contains "detail" error_data ;;
            if (found : bool) then py_getitem error_data "detail"
            else ret (VStr "Username already registered"))
           is_JSONDecodeError
           (fun _ => ret (VStr "Username already registered")) ;;
       raise (Exn ValueError ("Registration failed: " ++ py_str error_msg))
     else
       raise_for_status response ;;;
       ret VNone)
    is_RequestException
    (fun e => raise (Exn RequestException ("Request failed: " ++ exn_str e))).

End RegisterUser.

(* ------------------------------------------------------------------ *)
(** ** src/vote_and_results.py : the wrappers *)
(* ------------------------------------------------------------------ *)

(** [cast_vote(poll_id, option_id, token, base_url)].  [str_int poll_id]
    stands for the f-string that builds the URL, which Python evaluates
    for a [poll_id] of at most 4300 digits; the properties of the calls
    issued and of the exceptions raised are stated for such a [poll_id]. *)
Definition cast_vote (net : Network) (poll_id option_id : Z)
           (token : string) (base_url : string) : Py value :=
  let url := base_url ++ "/polls/" ++ str_int poll_id ++ "/vote" in
  let data := VDict [("option_id", VInt option_id)] in
  let headers := [("Content-Type", "application/json");
                  ("Authorization", "Bearer " ++ token)] in
  try_except
    (response <- requests_send net (PostJson url data headers) ;;
     if status_code response =? 200 then
       response_json response
     else if status_code response =? 401 then
       raise (Exn ValueError "Unauthorized: Invalid or missing JWT token")
     else if status_code response =? 404 then
       raise (Exn ValueError "Poll or option not found")
     else
       raise_for_status response ;;;
       ret VNone)
    is_RequestException
    (fun e => raise (Exn RequestException ("Request failed: " ++ exn_str e))).

(** [get_poll_results(poll_id, base_url)], with the same reading of the
    URL. *)
Definition get_poll_results (net : Network) (poll_id : Z)
           (base_url : string) : Py value :=
  let url := base_url ++ "/polls/" ++ str_int poll_id ++ "/results" in
  try_except
    (response <- requests_send net (Get url []) ;;
     if status_code response =? 200 then
       response_json response
     else if status_code response =? 404 then
       raise (Exn ValueError "Poll not found")
     else
       raise_for_status response ;;;
       ret VNone)
    is_RequestException
    (fun e => raise (Exn RequestException ("Request failed: " ++ exn_str e))).

(** [token_data.get('access_token')] *)
Definition py_get (container : value) (key : string) : Py value :=
  match container with
  | VDict d =>
      ret (match dict_get key d with Some v => v | None => VNone end)
  | _ => raise (Exn AttributeError "object has no attribute 'get'")
  end.

(** [get_vote_token(username, password, base_url)] *)
Definition get_vote_token (net : Network) (username password : string)
           (base_url : string) : Py value :=
  let url := base_url ++ "/login" in
  let data := [("username", username); ("password", password)] in
  let headers := [("Content-Type", "application/x-www-form-urlencoded")] in
  try_except
    (response <- requests_send net (PostForm url data headers) ;;
     if status_code response =? 200 then
       token_data <- response_json response ;;
       py_get token_data "access_token"
     else
       print ("Login failed: " ++ str_int (status_code response)) ;;;
       ret VNone)
    is_Exception
    (fun e => print ("Login error: " ++ exn_str e) ;;; ret VNone).

(* ------------------------------------------------------------------ *)
(** ** src/vote_and_results.py : [print_poll_results] *)
(* ------------------------------------------------------------------ *)

(** The dicts of the PollResults schema, with the types the schema gives
    their values: [int] ids and counts, [str] texts, a list of option
    dicts.  Every key is read with [.get(key, default)], so every field
    may be absent.  Values of other types (a [vote_count] that is a
    string, a [results] that is not a list of dicts) are outside these
    records; on such input the code raises [TypeError] or
    [AttributeError]. *)
Record OptionResult : Type := mkOption {
  option_id : option Z;
  text : option string;
  vote_count : option Z
}.

Record PollResults : Type := mkResults {
  poll_id : option Z;
  question : option string;
  results : option (list OptionResult)
}.

(** [x.get('vote_count', 0)] *)
Definition get_vote_count (x : OptionResult) : Z :=
  match vote_count x with Some n => n | None => 0 end.

(** [not results]: true of the empty dict, which is the record with no
    field at all. *)
Definition results_falsy (r : PollResults) : bool :=
  match poll_id r, question r, results r with
  | None, None, None => true
  | _, _, _ => false
  end.

(** [sorted(l, key=key, reverse=True)].  Python's sort is stable, and with
    [reverse=True] elements with equal keys still keep their original
    order; a stable sort has one possible result
    ([stable_sort_unique] below), computed here by insertion. *)
Section Sorted.
Context {A : Type}.
Variable key : A -> Z.

Fixpoint insert_reverse (x : A) (l : list A) : list A :=
  match l with
  | [] => [x]
  | y :: l' =>
      if key x <? key y then y :: insert_reverse x l'
      else x :: y :: l'
  end.

Fixpoint sorted_reverse (l : list A) : list A :=
  match l with
  | [] => []
  | x :: l' => insert_reverse x (sorted_reverse l')
  end.
End Sorted.

(** [sum(...)] over ints: left to right from 0. *)
Definition py_sum (l : list Z) : Z := fold_left Z.add l 0.

(** The least magnitude that does not round to a [float]: the midpoint
    between the largest float, [2^1024 - 2^971], and [2^1024]. *)
Definition float_overflow : Z := 2 ^ 1024 - 2 ^ 970.

(** [a / b] on ints.  Python yields the [float] nearest to the quotient,
    and raises [OverflowError] when that float would be out of range, that
    is when the quotient reaches [float_overflow] in absolute value.  The
    exact quotient is kept here, and the statements about percentages are
    statements of rational arithmetic. *)
Definition py_truediv (a b : Z) : Py Q :=
  if b =? 0 then raise (Exn ZeroDivisionError "division by zero")
  else if Z.abs a <? float_overflow * Z.abs b
       then ret (inject_Z a / inject_Z b)%Q
       else raise (Exn OverflowError
                     "integer division result too large for a float").

(** [(vote_count / total_votes * 100) if total_votes > 0 else 0] *)
Definition percentage (vote_count total_votes : Z) : Py Q :=
  if total_votes >? 0 then
    q <- py_truediv vote_count total_votes ;;
    ret (q * 100)%Q
  else ret 0%Q.

(** [s * n] for a [str]. *)
Fixpoint str_repeat (s : string) (n : nat) : string :=
  match n with
  | O => ""
  | S n' => s ++ str_repeat s n'
  end.

(** [for i, x in enumerate(l, start): body] *)
Fixpoint for_enumerate {A} (start : Z) (l : list A)
         (body : Z -> A -> Py unit) : Py unit :=
  match l with
  | [] => ret tt
  | x :: l' => body start x ;;; for_enumerate (start + 1) l' body
  end.

Section PrintPollResults.

(** The text of [f"{percentage:.1f}"]; rounding for display is outside
    this development. *)
Variable format_1f : Q -> string.

Definition str_or_NA (o : option string) : string :=
  match o with Some s => s | None => "N/A" end.

Definition int_or_NA (o : option Z) : string :=
  match o with Some n => str_int n | None => "N/A" end.

(** Converting an [int] to text fails beyond 4300 decimal digits (the
    default of [sys.set_int_max_str_digits]). *)
Definition int_max_str_digits : Z := 4300.

(** [f"{n}"] for an [int]. *)
Definition format_int (n : Z) : Py string :=
  if Z.abs n <? 10 ^ int_max_str_digits then ret (str_int n)
  else raise (Exn ValueError
                "Exceeds the limit (4300 digits) for integer string conversion").

(** [f"{v}"] for a field read with [.get(key, 'N/A')]. *)
Definition format_int_or_NA (o : option Z) : Py string :=
  match o with Some n => format_int n | None => ret "N/A" end.

(** The body of the [for] loop over the ranking. *)
Definition print_option (total_votes : Z) (i : Z) (opt : OptionResult)
  : Py unit :=
  let text_s := str_or_NA (text opt) in
  let vote_count := get_vote_count opt in
  pct <- percentage vote_count total_votes ;;
  i_s <- format_int i ;;
  print (i_s ++ ". " ++ text_s) ;;;
  vote_count_s <- format_int vote_count ;;
  print ("   Votes: " ++ vote_count_s ++ " (" ++ format_1f pct ++ "%)") ;;;
  option_id_s <- format_int_or_NA (option_id opt) ;;
  print ("   Option ID: " ++ option_id_s) ;;;
  print "".

(** [print_poll_results(results)] *)
Definition print_poll_results (r : PollResults) : Py unit :=
  if results_falsy r then
    print "No results available."
  else
    let results_data := match results r with Some l => l | None => [] end in
    poll_id_s <- format_int_or_NA (poll_id r) ;;
    print ("Poll #" ++ poll_id_s ++ ": " ++ str_or_NA (question r)) ;;;
    print (str_repeat "=" 50) ;;;
    match results_data with
    | [] => print "No votes cast yet."
    | _ :: _ =>
        let sorted_results := sorted_reverse get_vote_count results_data in
        let total_votes := py_sum (map get_vote_count results_data) in
        total_votes_s <- format_int total_votes ;;
        print ("Total votes: " ++ total_votes_s) ;;;
        print (str_repeat "-" 30) ;;;
        for_enumerate 1 sorted_results (print_option total_votes)
    end.

(** *** What the report shows, read off the records *)

(** The [vote_count] field of a record, 0 when it is absent. *)
Definition votes_field (x : OptionResult) : Z :=
  match vote_count x with
  | Some n => n
  | None => 0
  end.

(** The total of the [vote_count] fields. *)
Definition votes_total (l : list OptionResult) : Z :=
  fold_right Z.add 0 (map votes_field l).

(** The four lines of the report for the option ranked [i], showing the
    percentage [pct]. *)
Definition option_block (i : Z) (opt : OptionResult) (pct : Q)
  : list string :=
  [str_int i ++ ". " ++ str_or_NA (text opt);
   "   Votes: " ++ str_int (votes_field opt)
     ++ " (" ++ format_1f pct ++ "%)";
   "   Option ID: " ++ int_or_NA (option_id opt);
   ""].

Fixpoint ranking_blocks (i : Z) (ranking : list OptionResult)
         (pcts : list Q) : list string :=
  match ranking, pcts with
  | opt :: ranking', pct :: pcts' =>
      (option_block i opt pct ++ ranking_blocks (i + 1) ranking' pcts')%list
  | _, _ => []
  end.

End PrintPollResults.

(** The four lines above the ranking. *)
Definition report_header (pid : option Z) (qn : option string)
           (results_data : list OptionResult) : list string :=
  ["Poll #" ++ int_or_NA pid ++ ": " ++ str_or_NA qn;
   str_repeat "=" 50;
   "Total votes: " ++ str_int (votes_total results_data);
   str_repeat "-" 30].

(** An integer Python can turn into text: at most 4300 digits. *)
Definition printable_int (n : Z) : Prop := Z.abs n < 10 ^ 4300.

Definition printable_field (o : option Z) : Prop :=
  match o with
  | Some n => printable_int n
  | None => True
  end.

(** The quotient [a / b] rounds to a finite float. *)
Definition fits_float (a b : Z) : Prop :=
  Z.abs a < (2 ^ 1024 - 2 ^ 970) * Z.abs b.

(** The results [print_poll_results] can display in full: every integer
    it prints (the poll id, the total, the ranks, the vote counts and the
    option ids) can be turned into text and, when the total is positive,
    every quotient [vote_count / total] fits a float. *)
Definition displayable (pid : option Z) (results_data : list OptionResult)
  : Prop :=
  printable_field pid
  /\ printable_int (votes_total results_data)
  /\ printable_int (Z.of_nat (List.length results_data))
  /\ Forall (fun x =>
               printable_field (option_id x)
               /\ printable_int (votes_field x)
               /\ (0 < votes_total results_data ->
                   fits_float (votes_field x) (votes_total results_data)))
            results_data.

(* ------------------------------------------------------------------ *)
(** ** Runs of the pagination driver *)
(* ------------------------------------------------------------------ *)

(** The requests the driver has issued once [k] pages were fetched: page
    [i] is asked for with [skip = i * batch_size]. *)
Definition fetch_requests (base_url : string) (batch_size : Z) (k : nat)
  : list Request :=
  map (fun i => polls_request (Z.of_nat i * batch_size) batch_size base_url)
      (seq 0 k).

(** The world in which the driver, started in [w], issues fetch number [k]
    (counted from 0). *)
Definition after_fetches (base_url : string) (batch_size : Z) (w : World)
           (k : nat) : World :=
  mkWorld (sent w ++ fetch_requests base_url batch_size k)%list (stdout w).

(** What fetch number [k] of a run started in [w] returns or raises. *)
Definition nth_page (net : Network) (base_url : string) (batch_size : Z)
           (w : World) (k : nat) : Result (option (list value)) :=
  fst (fetch_polls net (Z.of_nat k * batch_size) batch_size base_url
         (after_fetches base_url batch_size w k)).

(** The outcomes of a fetch on which the loop body reaches a [break]:
    an exception, [None], an empty page, a page shorter than the page
    size. *)
Definition stops (batch_size : Z) (r : Result (option (list value))) : bool :=
  match r with
  | Raised _ => true
  | Returned None => true
  | Returned (Some []) => true
  | Returned (Some batch) => Z.of_nat (List.length batch) <? batch_size
  end.

(** *** Some collaborators *)

Definition param (name : string) (params : list (string * Z)) : Z :=
  match find (fun p => String.eqb (fst p) name) params with
  | Some (_, v) => v
  | None => 0
  end.

(** A network on which every request is answered with [r]. *)
Definition always_answers (r : Response) : Network :=
  fun _ _ => Answered r.

(** A server holding a finite dataset: [GET ?skip=s&limit=n] is answered
    with the slice of the dataset that starts at [s] and has at most [n]
    items. *)
Definition dataset_server (dataset : list value) : Network :=
  fun _ req =>
    match req with
    | Get url params =>
        Answered (mkResponse 200 "OK" url
          (Json (VList (firstn (Z.to_nat (param "limit" params))
                          (skipn (Z.to_nat (param "skip" params)) dataset)))))
    | _ => Answered (mkResponse 405 "Method Not Allowed" "" (NotJson ""))
    end.

(** A server that answers every page request with a full page. *)
Definition always_full_server (poll : value) : Network :=
  fun _ req =>
    match req with
    | Get url params =>
        Answered (mkResponse 200 "OK" url
          (Json (VList (repeat poll (Z.to_nat (param "limit" params))))))
    | _ => Answered (mkResponse 405 "Method Not Allowed" "" (NotJson ""))
    end.

(** A server that answers its first [good] requests with [page] and then
    becomes unreachable: every later call into [requests] raises [e]. *)
Definition failing_after (good : nat) (page : list value) (e : exn) : Network :=
  fun n req =>
    if (n <? good)%nat
    then Answered (mkResponse 200 "OK" "" (Json (VList page)))
    else Failed e.

(** [ceil(m / n)] for [n > 0]. *)
Definition ceil_div (m n : Z) : Z := (m + n - 1) / n.

(** The sum of a list of rationals. *)
Definition Qsum (l : list Q) : Q := fold_right Qplus 0%Q l.

(* ------------------------------------------------------------------ *)
(** ** The wrappers "with error handling" *)
(* ------------------------------------------------------------------ *)

(** [isinstance(e, ValueError)] *)
Definition is_ValueError (e : exn) : bool :=
  match exn_cls e with
  | ValueError | JSONDecodeError => true
  | _ => false
  end.

(** [except (requests.exceptions.RequestException, ValueError) as e] *)
Definition is_RequestException_or_ValueError (e : exn) : bool :=
  is_RequestException e || is_ValueError e.

(** [fetch_polls_with_error_handling(skip, limit, base_url)] *)
Definition fetch_polls_with_error_handling (net : Network) (skip limit : Z)
           (base_url : string) : Py (option (list value)) :=
  try_except
    (fetch_polls net skip limit base_url)
    is_RequestException_or_ValueError
    (fun e => print ("Failed to fetch polls: " ++ exn_str e) ;;; ret None).

(** [register_user_with_error_handling(username, password, base_url)] *)
Definition register_user_with_error_handling (py_repr : value -> string)
           (net : Network) (username password : string) (base_url : string)
  : Py value :=
  try_except
    (register_user py_repr net username password base_url)
    is_RequestException_or_ValueError
    (fun e => print ("Registration failed: " ++ exn_str e) ;;; ret VNone).

(** [cast_vote_with_error_handling(poll_id, option_id, token, base_url)] *)
Definition cast_vote_with_error_handling (net : Network)
           (poll_id option_id : Z) (token : string) (base_url : string)
  : Py value :=
  try_except
    (cast_vote net poll_id option_id token base_url)
    is_RequestException_or_ValueError
    (fun e => print ("Vote failed: " ++ exn_str e) ;;; ret VNone).

(** [get_poll_results_with_error_handling(poll_id, base_url)] *)
Definition get_poll_results_with_error_handling (net : Network)
           (poll_id : Z) (base_url : string) : Py value :=
  try_except
    (get_poll_results net poll_id base_url)
    is_RequestException_or_ValueError
    (fun e => print ("Failed to get poll results: " ++ exn_str e) ;;; ret VNone).

(** The requests of the three other raising wrappers. *)
Definition register_request (username password base_url : string) : Request :=
  PostJson (base_url ++ "/register")
    (VDict [("username", VStr username); ("password", VStr password)])
    [("Content-Type", "application/json")].

Definition vote_request (poll_id option_id : Z) (token base_url : string)
  : Request :=
  PostJson (base_url ++ "/polls/" ++ str_int poll_id ++ "/vote")
    (VDict [("option_id", VInt option_id)])
    [("Content-Type", "application/json");
     ("Authorization", "Bearer " ++ token)].

Definition results_request (poll_id : Z) (base_url : string) : Request :=
  Get (base_url ++ "/polls/" ++ str_int poll_id ++ "/results") [].

(** The decoded 400 bodies on which the lookup of ["detail"] in
    [register_user] raises [TypeError]: [in] is not defined on [None],
    [bool] and [int]; on a [list] or a [str] that contains ["detail"] the
    test succeeds and the subscript [error_data["detail"]] is ill-typed. *)
Definition detail_lookup_fails (error_data : value) : bool :=
  match error_data with
  | VNone | VBool _ | VInt _ => true
  | VList l => existsb (fun v => match v with
                                 | VStr s => String.eqb s "detail"
                                 | _ => false
                                 end) l
  | VStr s => str_contains "detail" s
  | VDict _ => false
  end.

(* ------------------------------------------------------------------ *)
(** ** src/fetch_polls.py : [print_polls_summary] *)
(* ------------------------------------------------------------------ *)

(** [container.get(key, default)] *)
Definition py_get_default (container : value) (key : string)
           (default : value) : Py value :=
  match container with
  | VDict d =>
      ret (match dict_get key d with Some v => v | None => default end)
  | _ => raise (Exn AttributeError "object has no attribute 'get'")
  end.

(** [len(v)] *)
Definition py_len (v : value) : Py Z :=
  match v with
  | VList l => ret (Z.of_nat (List.length l))
  | VDict d => ret (Z.of_nat (List.length d))
  | VStr s => ret (Z.of_nat (String.length s))
  | VNone | VBool _ | VInt _ => raise (Exn TypeError "object has no len()")
  end.

(** The items a [for] loop over [v] visits: the elements of a list, the
    keys of a dict, the characters of a str. *)
Definition py_iter (v : value) : Py (list value) :=
  match v with
  | VList l => ret l
  | VDict d => ret (map (fun kv => VStr (fst kv)) d)
  | VStr s => ret (map (fun c => VStr (String c "")) (list_ascii_of_string s))
  | VNone | VBool _ | VInt _ => raise (Exn TypeError "object is not iterable")
  end.

(** [for x in l: body] *)
Fixpoint for_each {A} (l : list A) (body : A -> Py unit) : Py unit :=
  match l with
  | [] => ret tt
  | x :: l' => body x ;;; for_each l' body
  end.

Section PrintPollsSummary.

Variable py_repr : value -> string.

(** The body of the inner loop, over the options of a poll. *)
Definition print_summary_option (opt : value) : Py unit :=
  text_v <- py_get_default opt "text" (VStr "N/A") ;;
  id_v <- py_get_default opt "id" (VStr "N/A") ;;
  print ("  - " ++ py_str py_repr text_v
         ++ " (ID: " ++ py_str py_repr id_v ++ ")").

(** The body of the outer loop, over the polls. *)
Definition print_summary_poll (poll : value) : Py unit :=
  id_v <- py_get_default poll "id" (VStr "N/A") ;;
  print ("ID: " ++ py_str py_repr id_v) ;;;
  question_v <- py_get_default poll "question" (VStr "N/A") ;;
  print ("Question: " ++ py_str py_repr question_v) ;;;
  created_v <- py_get_default poll "created_at" (VStr "N/A") ;;
  print ("Created: " ++ py_str py_repr created_v) ;;;
  owner_v <- py_get_default poll "owner_id" (VStr "N/A") ;;
  print ("Owner ID: " ++ py_str py_repr owner_v) ;;;
  options <- py_get_default poll "options" (VList []) ;;
  n <- py_len options ;;
  print ("Options (" ++ str_int n ++ "):") ;;;
  items <- py_iter options ;;
  for_each items print_summary_option ;;;
  print (str_repeat "-" 50).

(** [print_polls_summary(polls)] *)
Definition print_polls_summary (polls : list value) : Py unit :=
  match polls with
  | [] => print "No polls found."
  | _ :: _ =>
      print ("Found " ++ str_int (Z.of_nat (List.length polls)) ++ " polls:") ;;;
      print (str_repeat "-" 50) ;;;
      for_each polls print_summary_poll
  end.

End PrintPollsSummary.

(** The polls [print_polls_summary] gets through: a dict whose
    ['options'], when present, is a list of dicts (or an empty dict or
    str, over which the inner loop does nothing). *)
Definition is_dict (v : value) : bool :=
  match v with VDict _ => true | _ => false end.

Definition options_printable (options : value) : bool :=
  match options with
  | VList l => forallb is_dict l
  | VDict [] => true
  | VStr EmptyString => true
  | _ => false
  end.

Definition poll_printable (poll : value) : bool :=
  match poll with
  | VDict d =>
      match dict_get "options" d with
      | Some options => options_printable options
      | None => true
      end
  | _ => false
  end.

(** The number of option lines printed for a poll. *)
Definition option_lines (poll : value) : nat :=
  match poll with
  | VDict d =>
      match dict_get "options" d with
      | Some (VList l) => List.length l
      | _ => O
      end
  | _ => O
  end.

(** What [print_polls_summary] raises on a poll it does not get through:
    [AttributeError] from [.get] on something that is not a dict,
    [TypeError] from [len] on [None], a boolean or a number. *)
Definition summary_error (e : exn) : Prop :=
  exn_cls e = AttributeError \/ exn_cls e = TypeError.

(** *** Reading a run of the pagination driver *)

(** The items a fetch contributes to [all_polls]. *)
Definition page_items (r : Result (option (list value))) : list value :=
  match r with
  | Returned (Some batch) => batch
  | _ => []
  end.

(** The line the [except] clause of the driver prints for a fetch. *)
Definition fetch_diagnostic (skip : Z) (r : Result (option (list value)))
  : list string :=
  match r with
  | Raised e =>
      ["Error fetching polls batch starting at " ++ str_int skip
       ++ ": " ++ exn_str e]
  | Returned _ => []
  end.

(* ================================================================== *)
(** * Properties *)
(* ================================================================== *)

(** ** One page fetch *)

(** A fetch issues exactly one request and prints nothing. *)
Lemma fetch_polls_world net skip limit base_url w :
  snd (fetch_polls net skip limit base_url w)
  = mkWorld (sent w ++ [polls_request skip limit base_url])%list (stdout w).
Proof.
  unfold fetch_polls, try_except, bind, requests_send.
  destruct (net _ _) as [r | e]; cbn.
  - destruct (status_code r =? 200).
    + unfold response_json.
      destruct (body r) as [v | err | err | err]; cbn; try reflexivity.
      destruct v; reflexivity.
    + unfold raise_for_status. destruct (http_error_msg r); reflexivity.
  - destruct (is_RequestException e); reflexivity.
Qed.

(** A 200 answer carrying a JSON list is returned as that list. *)
Lemma fetch_polls_200_list net skip limit base_url w r polls :
  net (List.length (sent w)) (polls_request skip limit base_url) = Answered r ->
  status_code r = 200 ->
  body r = Json (VList polls) ->
  fst (fetch_polls net skip limit base_url w) = Returned (Some polls).
Proof.
  intros Hnet Hst Hbody.
  unfold fetch_polls, try_except, bind, requests_send.
  rewrite Hnet. cbn. rewrite Hst. cbn.
  unfold response_json. rewrite Hbody. reflexivity.
Qed.

(** A transport failure surfaces as an exception of the fetch. *)
Lemma fetch_polls_failed net skip limit base_url w e :
  net (List.length (sent w)) (polls_request skip limit base_url) = Failed e ->
  exists e', fst (fetch_polls net skip limit base_url w) = Raised e'.
Proof.
  intros Hnet.
  unfold fetch_polls, try_except, bind, requests_send.
  rewrite Hnet. cbn.
  destruct (is_RequestException e); eexists; reflexivity.
Qed.

(** ** The loop, one iteration at a time *)

Lemma after_fetches_0 base_url batch_size w :
  after_fetches base_url batch_size w 0 = w.
Proof.
  unfold after_fetches, fetch_requests. cbn.
  rewrite app_nil_r. destruct w; reflexivity.
Qed.

Lemma after_fetches_S base_url batch_size w k :
  after_fetches base_url batch_size w (S k)
  = mkWorld (sent (after_fetches base_url batch_size w k)
             ++ [polls_request (Z.of_nat k * batch_size) batch_size base_url])%list
            (stdout (after_fetches base_url batch_size w k)).
Proof.
  unfold after_fetches, fetch_requests. cbn [sent stdout].
  rewrite seq_S, map_app, app_assoc. reflexivity.
Qed.

Lemma skip_succ (k : nat) (batch_size : Z) :
  Z.of_nat k * batch_size + batch_size = Z.of_nat (S k) * batch_size.
Proof. lia. Qed.

(** An iteration whose fetch does not stop the loop appends the page and
    goes on with the next [skip]. *)
Lemma loop_continue fuel net base_url batch_size all_polls skip w :
  stops batch_size (fst (fetch_polls net skip batch_size base_url w)) = false ->
  exists batch,
    fst (fetch_polls net skip batch_size base_url w) = Returned (Some batch)
    /\ batch <> []
    /\ batch_size <= Z.of_nat (List.length batch)
    /\ fetch_all_polls_loop (S fuel) net base_url batch_size all_polls skip w
       = fetch_all_polls_loop fuel net base_url batch_size
           (all_polls ++ batch) (skip + batch_size)
           (mkWorld (sent w ++ [polls_request skip batch_size base_url])
                    (stdout w)).
Proof.
  intros Hstop.
  pose proof (fetch_polls_world net skip batch_size base_url w) as Hw.
  cbn [fetch_all_polls_loop].
  destruct (fetch_polls net skip batch_size base_url w) as [r w1].
  cbn [fst snd] in *. subst w1.
  destruct r as [[[|x batch]|]|e]; unfold stops in Hstop; try discriminate.
  exists (x :: batch). repeat split.
  - discriminate.
  - apply Z.ltb_ge in Hstop. exact Hstop.
  - rewrite Hstop. reflexivity.
Qed.

(** An iteration whose fetch stops the loop makes it return, after that
    one request. *)
Lemma loop_stop fuel net base_url batch_size all_polls skip w :
  stops batch_size (fst (fetch_polls net skip batch_size base_url w)) = true ->
  exists result w',
    fetch_all_polls_loop (S fuel) net base_url batch_size all_polls skip w
    = Some (result, w')
    /\ sent w' = (sent w ++ [polls_request skip batch_size base_url])%list.
Proof.
  intros Hstop.
  pose proof (fetch_polls_world net skip batch_size base_url w) as Hw.
  cbn [fetch_all_polls_loop].
  destruct (fetch_polls net skip batch_size base_url w) as [r w1].
  cbn [fst snd] in *. subst w1.
  destruct r as [[[|x batch]|]|e]; unfold stops in Hstop; try discriminate.
  - eexists _, _. split; reflexivity.
  - rewrite Hstop. eexists _, _. split; reflexivity.
  - eexists _, _. split; reflexivity.
  - cbn. eexists _, _. split; reflexivity.
Qed.

(** ** The loop, over a whole run *)

(** With [fuel] iterations allowed, the loop returns at the first fetch
    that stops it, having issued the requests up to that one; it runs out
    of fuel when none of the first [fuel] fetches stops it. *)
Lemma loop_characterised net base_url batch_size w fuel :
  forall j all_polls,
    match fetch_all_polls_loop fuel net base_url batch_size all_polls
            (Z.of_nat j * batch_size) (after_fetches base_url batch_size w j)
    with
    | Some (_, w') =>
        exists k, (j <= k < j + fuel)%nat
          /\ stops batch_size (nth_page net base_url batch_size w k) = true
          /\ (forall i, (j <= i < k)%nat ->
                stops batch_size (nth_page net base_url batch_size w i) = false)
          /\ sent w' = sent (after_fetches base_url batch_size w (S k))
    | None =>
        forall k, (j <= k < j + fuel)%nat ->
          stops batch_size (nth_page net base_url batch_size w k) = false
    end.
Proof.
  induction fuel as [|fuel IH]; intros j all_polls.
  - cbn. intros k Hk. lia.
  - destruct (stops batch_size (nth_page net base_url batch_size w j)) eqn:Hj.
    + destruct (loop_stop fuel net base_url batch_size all_polls _ _ Hj)
        as (res & w' & Heq & Hsent).
      rewrite Heq. exists j. repeat split; try lia; try exact Hj.
      rewrite Hsent, after_fetches_S. reflexivity.
    + destruct (loop_continue fuel net base_url batch_size all_polls _ _ Hj)
        as (batch & _ & _ & _ & Heq).
      rewrite Heq, skip_succ, <- after_fetches_S.
      specialize (IH (S j) (all_polls ++ batch)%list).
      destruct (fetch_all_polls_loop fuel net base_url batch_size _ _ _)
        as [[res w']|].
      * destruct IH as (k & Hk & Hs & Hbefore & Hsent).
        exists k. repeat split; try lia; try assumption.
        intros i Hi. destruct (Nat.eq_dec i j) as [->|Hne]; [exact Hj|].
        apply Hbefore. lia.
      * intros k Hk. destruct (Nat.eq_dec k j) as [->|Hne]; [exact Hj|].
        apply IH. lia.
Qed.

(** As long as the fetches do not stop the loop, it accumulates their pages
    in order. *)
Lemma loop_run_pages net base_url batch_size w
      (pages : nat -> list value) fuel n :
  forall j all_polls,
    (forall i, (j <= i < j + n)%nat ->
       nth_page net base_url batch_size w i = Returned (Some (pages i))
       /\ stops batch_size (Returned (Some (pages i))) = false) ->
    fetch_all_polls_loop (n + fuel) net base_url batch_size all_polls
      (Z.of_nat j * batch_size) (after_fetches base_url batch_size w j)
    = fetch_all_polls_loop fuel net base_url batch_size
        (all_polls ++ List.concat (map pages (seq j n)))
        (Z.of_nat (j + n) * batch_size)
        (after_fetches base_url batch_size w (j + n)).
Proof.
  induction n as [|n IH]; intros j all_polls Hpages.
  - cbn [plus seq map List.concat]. rewrite app_nil_r, Nat.add_0_r. reflexivity.
  - destruct (Hpages j ltac:(lia)) as [Hpage Hgo].
    assert (Hstop : stops batch_size
              (fst (fetch_polls net (Z.of_nat j * batch_size) batch_size base_url
                      (after_fetches base_url batch_size w j))) = false).
    { fold (nth_page net base_url batch_size w j). rewrite Hpage. exact Hgo. }
    destruct (loop_continue (n + fuel) net base_url batch_size all_polls _ _ Hstop)
      as (batch & Hb & _ & _ & Heq).
    fold (nth_page net base_url batch_size w j) in Hb.
    rewrite Hpage in Hb. injection Hb as <-.
    cbn [plus]. rewrite Heq, skip_succ, <- after_fetches_S.
    rewrite IH by (intros i Hi; apply Hpages; lia).
    cbn [seq map List.concat]. rewrite app_assoc.
    replace (S j + n)%nat with (j + S n)%nat by lia. reflexivity.
Qed.

(** More fuel never changes a result already reached. *)
Lemma loop_fuel_mono net base_url batch_size fuel :
  forall extra all_polls skip w res,
    fetch_all_polls_loop fuel net base_url batch_size all_polls skip w = Some res ->
    fetch_all_polls_loop (fuel + extra) net base_url batch_size all_polls skip w
    = Some res.
Proof.
  induction fuel as [|fuel IH]; intros extra all_polls skip w res H.
  - discriminate.
  - cbn [plus fetch_all_polls_loop] in *.
    destruct (fetch_polls net skip batch_size base_url w) as [[[[|x batch]|]|e] w1];
      try exact H.
    destruct (Z.of_nat (List.length (x :: batch)) <? batch_size); [exact H|].
    apply IH. exact H.
Qed.

(** ** Termination of the driver (C2) *)

(** Every fetch against [always_full_server] is a full page. *)
Lemma always_full_page poll base_url batch_size w k :
  nth_page (always_full_server poll) base_url batch_size w k
  = Returned (Some (repeat poll (Z.to_nat batch_size))).
Proof.
  unfold nth_page.
  apply fetch_polls_200_list
    with (r := mkResponse 200 "OK" (base_url ++ "/polls")
                 (Json (VList (repeat poll (Z.to_nat batch_size)))));
    reflexivity.
Qed.

(** C2, as stated, fails: against a collaborator that answers every request
    with a full page of 10 polls, [fetch_all_polls] with page size 10 returns
    for no amount of fuel. *)
Lemma fetch_all_polls_always_full_never_returns :
  ~ exists fuel res,
      fetch_all_polls fuel (always_full_server (VInt 7))
        "http://localhost:8000" 10 world0 = Some res.
Proof.
  intros (fuel & res & H).
  pose proof (loop_characterised (always_full_server (VInt 7))
                "http://localhost:8000" 10 world0 fuel 0 []) as Hc.
  rewrite after_fetches_0 in Hc. cbn [Z.of_nat Z.mul] in Hc.
  unfold fetch_all_polls in H. rewrite H in Hc. destruct res as [l w'].
  destruct Hc as (k & _ & Hs & _).
  rewrite always_full_page in Hs. discriminate Hs.
Qed.

(** C2 (amended): started in any world against any collaborator and allowed
    [fuel] iterations, [fetch_all_polls] returns exactly at the first fetch
    that raises, yields [None], yields an empty page or yields a page
    shorter than the page size, having issued the requests up to that fetch
    and no more; it is still running after [fuel] iterations exactly when
    none of the first [fuel] fetches is of that kind.  There is no other
    bound on the number of fetches. *)
Theorem fetch_all_polls_stops_at_first_stopping_fetch
        net base_url batch_size w fuel :
  match fetch_all_polls fuel net base_url batch_size w with
  | Some (_, w') =>
      exists k, (k < fuel)%nat
        /\ stops batch_size (nth_page net base_url batch_size w k) = true
        /\ (forall i, (i < k)%nat ->
              stops batch_size (nth_page net base_url batch_size w i) = false)
        /\ sent w' = (sent w ++ fetch_requests base_url batch_size (S k))%list
  | None =>
      forall k, (k < fuel)%nat ->
        stops batch_size (nth_page net base_url batch_size w k) = false
  end.
Proof.
  pose proof (loop_characterised net base_url batch_size w fuel 0 []) as Hc.
  rewrite after_fetches_0 in Hc. cbn [Z.of_nat Z.mul] in Hc.
  unfold fetch_all_polls.
  destruct (fetch_all_polls_loop fuel net base_url batch_size [] 0 w)
    as [[res w']|].
  - destruct Hc as (k & Hk & Hs & Hbefore & Hsent).
    exists k. repeat split; try lia; try assumption.
    intros i Hi. apply Hbefore. lia.
  - intros k Hk. apply Hc. lia.
Qed.

(** ** A short first page (C9) *)

(** C9: if the first fetch returns a page that is empty or has fewer items
    than the page size, [fetch_all_polls] returns exactly that page; the
    request for it is the only one issued, and nothing is printed. *)
Theorem fetch_all_polls_short_first_page
        net base_url batch_size w fuel (page : list value) :
  fst (fetch_polls net 0 batch_size base_url w) = Returned (Some page) ->
  page = [] \/ Z.of_nat (List.length page) < batch_size ->
  exists w',
    fetch_all_polls (S fuel) net base_url batch_size w = Some (page, w')
    /\ sent w' = (sent w ++ [polls_request 0 batch_size base_url])%list
    /\ stdout w' = stdout w.
Proof.
  intros Hpage Hshort.
  pose proof (fetch_polls_world net 0 batch_size base_url w) as Hw.
  unfold fetch_all_polls. cbn [fetch_all_polls_loop].
  destruct (fetch_polls net 0 batch_size base_url w) as [r w1].
  cbn [fst snd] in *. subst r w1.
  destruct page as [|x page].
  - eexists. repeat split.
  - destruct Hshort as [Hnil | Hlt]; [discriminate|].
    apply Z.ltb_lt in Hlt. rewrite Hlt.
    eexists. repeat split.
Qed.

Lemma fetch_all_polls_short_first_page_witness :
  exists w',
    fetch_all_polls 1 (dataset_server [VInt 1; VInt 2; VInt 3])
      "http://localhost:8000" 10 world0
    = Some ([VInt 1; VInt 2; VInt 3], w')
    /\ sent w' = (sent world0
                  ++ [polls_request 0 10 "http://localhost:8000"])%list
    /\ stdout w' = stdout world0.
Proof.
  apply (fetch_all_polls_short_first_page
           (dataset_server [VInt 1; VInt 2; VInt 3])
           "http://localhost:8000" 10 world0 0 [VInt 1; VInt 2; VInt 3]).
  - reflexivity.
  - right. cbn. lia.
Defined.

(** ** A failing fetch in mid-sequence (C5) *)

(** C5: let the fetches for batches 1..k-1 return full pages (non-empty,
    not shorter than the page size) and the fetch for batch [k] raise [e].
    Then [fetch_all_polls] returns (it has no exceptional outcome) the
    pages of batches 1..k-1 in order, after [k] requests, and has printed
    one diagnostic line naming the failing [skip] and [e]. *)
Theorem fetch_all_polls_partial_on_failure
        net base_url batch_size w (pages : nat -> list value) k e fuel :
  (1 <= k)%nat ->
  (forall i, (i < k - 1)%nat ->
     nth_page net base_url batch_size w i = Returned (Some (pages i))
     /\ pages i <> []
     /\ batch_size <= Z.of_nat (List.length (pages i))) ->
  nth_page net base_url batch_size w (k - 1) = Raised e ->
  (k <= fuel)%nat ->
  exists w',
    fetch_all_polls fuel net base_url batch_size w
    = Some (List.concat (map pages (seq 0 (k - 1))), w')
    /\ sent w' = (sent w ++ fetch_requests base_url batch_size k)%list
    /\ stdout w'
       = (stdout w
          ++ [("Error fetching polls batch starting at "
               ++ str_int (Z.of_nat (k - 1) * batch_size)
               ++ ": " ++ exn_str e)%string])%list.
Proof.
  intros Hk Hfull Hfail Hfuel.
  replace fuel with ((k - 1) + S (fuel - k))%nat by lia.
  unfold fetch_all_polls.
  pose proof (loop_run_pages net base_url batch_size w pages
                (S (fuel - k)) (k - 1) 0 []) as Hrun.
  rewrite after_fetches_0 in Hrun. cbn [Z.of_nat Z.mul plus app] in Hrun.
  rewrite Hrun; clear Hrun.
  - unfold nth_page in Hfail.
    pose proof (fetch_polls_world net (Z.of_nat (k - 1) * batch_size)
                  batch_size base_url
                  (after_fetches base_url batch_size w (k - 1))) as Hw.
    cbn [fetch_all_polls_loop].
    destruct (fetch_polls net _ batch_size base_url
                (after_fetches base_url batch_size w (k - 1))) as [r w1].
    cbn [fst snd] in *. subst r w1.
    cbn [print sent stdout].
    eexists. split; [reflexivity|]. cbn [sent stdout]. split; [|reflexivity].
    replace k with (S (k - 1)) at 3 by lia.
    unfold after_fetches, fetch_requests. cbn [sent].
    rewrite seq_S, map_app, app_assoc. reflexivity.
  - intros i Hi. destruct (Hfull i ltac:(lia)) as (Hp & Hne & Hlen).
    split; [exact Hp|].
    unfold stops. destruct (pages i) as [|x l]; [congruence|].
    apply Z.ltb_ge. exact Hlen.
Qed.

Lemma fetch_all_polls_partial_on_failure_witness :
  exists w',
    fetch_all_polls 2
      (failing_after 1 [VStr "a"; VStr "b"]
         (Exn ConnectionError "Connection refused"))
      "http://localhost:8000" 2 world0
    = Some ([VStr "a"; VStr "b"], w')
    /\ sent w' = [polls_request 0 2 "http://localhost:8000";
                  polls_request 2 2 "http://localhost:8000"]
    /\ stdout w'
       = ["Error fetching polls batch starting at 2: Request failed: Connection refused"].
Proof.
  apply (fetch_all_polls_partial_on_failure
           (failing_after 1 [VStr "a"; VStr "b"]
              (Exn ConnectionError "Connection refused"))
           "http://localhost:8000" 2 world0
           (fun _ => [VStr "a"; VStr "b"]) 2
           (Exn RequestException "Request failed: Connection refused") 2).
  - lia.
  - intros i Hi. assert (i = 0)%nat as -> by lia.
    split; [reflexivity|]. split; [discriminate|]. cbn. lia.
  - reflexivity.
  - lia.
Defined.

(** ** Paging through a finite dataset (C1, C3) *)

(** Against [dataset_server], a fetch returns the requested slice. *)
Lemma fetch_polls_dataset dataset (s n : nat) base_url w :
  fetch_polls (dataset_server dataset) (Z.of_nat s) (Z.of_nat n) base_url w
  = (Returned (Some (firstn n (skipn s dataset))),
     mkWorld (sent w ++ [polls_request (Z.of_nat s) (Z.of_nat n) base_url])%list
             (stdout w)).
Proof.
  pose proof (fetch_polls_world (dataset_server dataset)
                (Z.of_nat s) (Z.of_nat n) base_url w) as Hw.
  pose proof (fetch_polls_200_list (dataset_server dataset)
                (Z.of_nat s) (Z.of_nat n) base_url w
                (mkResponse 200 "OK" (base_url ++ "/polls")
                   (Json (VList (firstn n (skipn s dataset)))))
                (firstn n (skipn s dataset))) as Hr.
  destruct (fetch_polls _ _ _ _ _) as [r w1]. cbn [fst snd] in *.
  rewrite Hw, Hr; try reflexivity.
  unfold dataset_server, polls_request, param. cbn.
  rewrite !Nat2Z.id. reflexivity.
Qed.

(** From any point [s] of the dataset, the loop returns what it had
    accumulated followed by the rest of the dataset, after
    [|rest| / n + 1] requests, provided it is allowed that many
    iterations. *)
Lemma loop_dataset dataset (n : nat) base_url fuel :
  (1 <= n)%nat ->
  forall s all_polls w,
    (List.length (skipn s dataset) / n < fuel)%nat ->
    exists w',
      fetch_all_polls_loop fuel (dataset_server dataset) base_url (Z.of_nat n)
        all_polls (Z.of_nat s) w
      = Some ((all_polls ++ skipn s dataset)%list, w')
      /\ List.length (sent w')
         = (List.length (sent w) + (List.length (skipn s dataset) / n + 1))%nat
      /\ stdout w' = stdout w.
Proof.
  intros Hn. induction fuel as [|fuel IH]; intros s all_polls w Hfuel; [lia|].
  cbn [fetch_all_polls_loop]. rewrite fetch_polls_dataset.
  set (rest := skipn s dataset) in *.
  destruct (Nat.lt_ge_cases (List.length rest) n) as [Hshort | Hfull].
  - (* the page is the whole rest: empty or short *)
    rewrite firstn_all2 by lia.
    rewrite (Nat.div_small _ _ Hshort).
    destruct rest as [|x rest'] eqn:Hrest.
    + eexists. rewrite app_nil_r. split; [reflexivity|].
      cbn [sent stdout]. rewrite length_app. split; reflexivity.
    + replace (Z.of_nat (List.length (x :: rest')) <? Z.of_nat n) with true
        by (symmetry; apply Z.ltb_lt; lia).
      eexists. split; [reflexivity|].
      cbn [sent stdout]. rewrite length_app. split; reflexivity.
  - (* a full page; go on from [s + n] *)
    assert (Hlen : List.length (firstn n rest) = n)
      by (rewrite length_firstn; lia).
    destruct (firstn n rest) as [|x page] eqn:Hpage; [cbn in Hlen; lia|].
    replace (Z.of_nat (List.length (x :: page)) <? Z.of_nat n) with false
      by (symmetry; apply Z.ltb_ge; lia).
    replace (Z.of_nat s + Z.of_nat n) with (Z.of_nat (s + n)) by lia.
    assert (Hskip : skipn (s + n) dataset = skipn n rest).
    { unfold rest. rewrite skipn_skipn. f_equal. lia. }
    assert (Hdiv : (List.length rest / n
                    = S (List.length (skipn n rest) / n))%nat).
    { rewrite length_skipn.
      replace (List.length rest) with ((List.length rest - n) + 1 * n)%nat at 1
        by lia.
      rewrite Nat.div_add by lia. lia. }
    destruct (IH (s + n)%nat (all_polls ++ x :: page)%list
                (mkWorld (sent w ++ [polls_request (Z.of_nat s) (Z.of_nat n)
                                       base_url])%list (stdout w)))
      as (w' & Heq & Hsent & Hout).
    { rewrite Hskip. lia. }
    exists w'. rewrite Heq, Hskip, <- Hpage, <- app_assoc, firstn_skipn.
    split; [reflexivity|]. split; [|exact Hout].
    rewrite Hsent, Hskip. cbn [sent]. rewrite length_app. cbn [List.length].
    lia.
Qed.

(** The cut-off of [loop_dataset], read with [Z] page sizes. *)
Lemma dataset_run dataset batch_size base_url w fuel :
  1 <= batch_size ->
  Z.of_nat (List.length dataset) / batch_size < Z.of_nat fuel ->
  exists w',
    fetch_all_polls fuel (dataset_server dataset) base_url batch_size w
    = Some (dataset, w')
    /\ Z.of_nat (List.length (sent w'))
       = Z.of_nat (List.length (sent w))
         + (Z.of_nat (List.length dataset) / batch_size + 1)
    /\ stdout w' = stdout w.
Proof.
  intros Hn Hfuel.
  rewrite <- (Z2Nat.id batch_size) in * by lia.
  set (n := Z.to_nat batch_size) in *.
  assert (Hn' : (1 <= n)%nat) by lia.
  rewrite <- Nat2Z.inj_div in *.
  destruct (loop_dataset dataset n base_url fuel Hn' 0%nat [] w)
    as (w' & Heq & Hsent & Hout).
  { cbn [skipn]. lia. }
  exists w'. unfold fetch_all_polls. cbn [skipn app Z.of_nat] in *.
  rewrite Heq. split; [reflexivity|]. split; [lia | exact Hout].
Qed.

(** C1: for every page size [N >= 1] and every dataset of [M] polls served
    in slices, [fetch_all_polls] returns (any fuel above [M / N] is enough)
    and its result is the dataset itself: all [M] items, in the server's
    order. *)
Theorem fetch_all_polls_returns_dataset dataset batch_size base_url w fuel :
  1 <= batch_size ->
  Z.of_nat (List.length dataset) / batch_size < Z.of_nat fuel ->
  exists w',
    fetch_all_polls fuel (dataset_server dataset) base_url batch_size w
    = Some (dataset, w').
Proof.
  intros Hn Hfuel.
  destruct (dataset_run dataset batch_size base_url w fuel Hn Hfuel)
    as (w' & Heq & _).
  exists w'. exact Heq.
Qed.

(** The scenario of the specification: 13 polls, page size 10. *)
Lemma fetch_all_polls_returns_dataset_witness :
  exists w',
    fetch_all_polls 2 (dataset_server (map VInt (map Z.of_nat (seq 1 13))))
      "http://localhost:8000" 10 world0
    = Some (map VInt (map Z.of_nat (seq 1 13)), w').
Proof.
  apply (fetch_all_polls_returns_dataset
           (map VInt (map Z.of_nat (seq 1 13)))
           10 "http://localhost:8000" world0 2).
  - lia.
  - reflexivity.
Defined.

Lemma ceil_div_not_multiple m n :
  1 <= n -> m mod n <> 0 -> m / n + 1 = ceil_div m n.
Proof.
  intros Hn Hr. unfold ceil_div.
  pose proof (Z.mod_pos_bound m n ltac:(lia)) as Hb.
  pose proof (Z.div_mod m n ltac:(lia)) as Hdm.
  apply (Z.div_unique_pos _ _ _ (m mod n - 1)); lia.
Qed.

Lemma ceil_div_multiple m n :
  1 <= n -> m mod n = 0 -> m / n = ceil_div m n.
Proof.
  intros Hn Hr. unfold ceil_div.
  pose proof (Z.div_mod m n ltac:(lia)) as Hdm.
  apply (Z.div_unique_pos _ _ _ (n - 1)); lia.
Qed.

(** C3, as stated, fails: on a dataset of 4 polls with page size 2 the
    driver issues 3 requests (the third fetches an empty page), not
    [ceil(4/2) = 2]. *)
Lemma fetch_all_polls_exact_multiple_extra_fetch :
  exists w',
    fetch_all_polls 3 (dataset_server [VInt 1; VInt 2; VInt 3; VInt 4])
      "http://localhost:8000" 2 world0
    = Some ([VInt 1; VInt 2; VInt 3; VInt 4], w')
    /\ List.length (sent w') = 3%nat
    /\ ceil_div 4 2 = 2
    /\ Z.of_nat (List.length (sent w')) <> ceil_div 4 2.
Proof.
  eexists. split; [reflexivity|]. cbn. repeat split. discriminate.
Qed.

(** C3 (amended): for every page size [N >= 1] and every dataset of [M]
    polls, [fetch_all_polls] returns after exactly [M / N + 1] requests
    (floor division): that is [ceil(M/N)] when [N] does not divide [M], and
    one more than [ceil(M/N)] when it does ([M = 0] included), the last
    request then fetching an empty page. *)
Theorem fetch_all_polls_request_count dataset batch_size base_url w fuel :
  1 <= batch_size ->
  Z.of_nat (List.length dataset) / batch_size < Z.of_nat fuel ->
  exists w',
    fetch_all_polls fuel (dataset_server dataset) base_url batch_size w
    = Some (dataset, w')
    /\ Z.of_nat (List.length (sent w')) - Z.of_nat (List.length (sent w))
       = Z.of_nat (List.length dataset) / batch_size + 1
    /\ (Z.of_nat (List.length dataset) mod batch_size <> 0 ->
        Z.of_nat (List.length (sent w')) - Z.of_nat (List.length (sent w))
        = ceil_div (Z.of_nat (List.length dataset)) batch_size)
    /\ (Z.of_nat (List.length dataset) mod batch_size = 0 ->
        Z.of_nat (List.length (sent w')) - Z.of_nat (List.length (sent w))
        = ceil_div (Z.of_nat (List.length dataset)) batch_size + 1).
Proof.
  intros Hn Hfuel.
  destruct (dataset_run dataset batch_size base_url w fuel Hn Hfuel)
    as (w' & Heq & Hsent & _).
  exists w'. split; [exact Heq|]. split; [lia|]. split; intros Hmod.
  - rewrite <- (ceil_div_not_multiple _ _ Hn Hmod). lia.
  - rewrite <- (ceil_div_multiple _ _ Hn Hmod). lia.
Qed.

Lemma fetch_all_polls_request_count_witness :
  exists w',
    fetch_all_polls 2 (dataset_server (map VInt (map Z.of_nat (seq 1 13))))
      "http://localhost:8000" 10 world0
    = Some (map VInt (map Z.of_nat (seq 1 13)), w')
    /\ Z.of_nat (List.length (sent w')) - Z.of_nat (List.length (sent world0))
       = 13 / 10 + 1.
Proof.
  destruct (fetch_all_polls_request_count
              (map VInt (map Z.of_nat (seq 1 13)))
              10 "http://localhost:8000" world0 2) as (w' & Heq & Hn & _).
  - lia.
  - reflexivity.
  - exists w'. split; [exact Heq | exact Hn].
Defined.

(** ** Status codes other than 200 and the distinguished ones (C4) *)

(** [raise_for_status] raises for the codes 400..599 only. *)
Lemma http_error_msg_None r :
  status_code r < 400 \/ 600 <= status_code r -> http_error_msg r = None.
Proof.
  intros H. unfold http_error_msg.
  destruct (Z.leb_spec 400 (status_code r)), (Z.ltb_spec (status_code r) 500),
    (Z.leb_spec 500 (status_code r)), (Z.ltb_spec (status_code r) 600);
    cbn; try reflexivity; lia.
Qed.

Lemma http_error_msg_Some r :
  400 <= status_code r < 600 -> exists msg, http_error_msg r = Some msg.
Proof.
  intros H. unfold http_error_msg.
  destruct (Z.leb_spec 400 (status_code r)), (Z.ltb_spec (status_code r) 500),
    (Z.leb_spec 500 (status_code r)), (Z.ltb_spec (status_code r) 600);
    cbn; try (eexists; reflexivity); lia.
Qed.

Ltac neq_status H :=
  match goal with
  | |- context [status_code ?r =? ?c] =>
      replace (status_code r =? c) with false
        by (symmetry; apply Z.eqb_neq; first [exact H | lia])
  end.

(** For an error code (400..599) that is neither 200 nor distinguished,
    each wrapper raises the generic [RequestException] wrapping the
    [HTTPError] of [raise_for_status]. *)
Lemma wrappers_raise_on_other_error_codes
      py_repr r w skip limit username password poll_id option_id token base_url :
  400 <= status_code r < 600 ->
  exists msg,
    http_error_msg r = Some msg
    /\ fst (fetch_polls (always_answers r) skip limit base_url w)
       = Raised (Exn RequestException ("Request failed: " ++ msg))
    /\ (status_code r <> 400 ->
        fst (register_user py_repr (always_answers r) username password
               base_url w)
        = Raised (Exn RequestException ("Request failed: " ++ msg)))
    /\ (status_code r <> 401 -> status_code r <> 404 ->
        fst (cast_vote (always_answers r) poll_id option_id token
               base_url w)
        = Raised (Exn RequestException ("Request failed: " ++ msg)))
    /\ (status_code r <> 404 ->
        fst (get_poll_results (always_answers r) poll_id base_url w)
        = Raised (Exn RequestException ("Request failed: " ++ msg))).
Proof.
  intros Hr. destruct (http_error_msg_Some r Hr) as [msg Hmsg].
  exists msg. split; [exact Hmsg|].
  assert (H200 : status_code r <> 200) by lia.
  unfold fetch_polls, register_user, cast_vote, get_poll_results,
    try_except, bind, requests_send, always_answers, raise_for_status.
  rewrite Hmsg. cbn.
  repeat split; intros; repeat neq_status H200; reflexivity.
Qed.

(** C4, on the code: for a status code that is not 200, not distinguished
    and outside 400..599 (201, 204, 302, ...), [raise_for_status] does not
    raise, and each wrapper falls off the end of its [else] branch: it
    returns [None] and raises nothing. *)
Theorem wrappers_return_None_outside_error_codes
        py_repr r w skip limit username password poll_id option_id token base_url :
  status_code r <> 200 ->
  status_code r < 400 \/ 600 <= status_code r ->
  fst (fetch_polls (always_answers r) skip limit base_url w)
  = Returned None
  /\ fst (register_user py_repr (always_answers r) username password
            base_url w)
     = Returned VNone
  /\ fst (cast_vote (always_answers r) poll_id option_id token base_url w)
     = Returned VNone
  /\ fst (get_poll_results (always_answers r) poll_id base_url w)
     = Returned VNone.
Proof.
  intros H200 Hr.
  pose proof (http_error_msg_None r Hr) as Hmsg.
  unfold fetch_polls, register_user, cast_vote, get_poll_results,
    try_except, bind, requests_send, always_answers, raise_for_status.
  rewrite Hmsg. cbn.
  repeat split; repeat neq_status H200; reflexivity.
Qed.

Lemma wrappers_return_None_outside_error_codes_witness :
  fst (fetch_polls (always_answers (mkResponse 201 "Created" "" (Json (VList []))))
         0 10 "http://localhost:8000" world0)
  = Returned None
  /\ fst (register_user (fun _ => "")
            (always_answers (mkResponse 201 "Created" "" (Json (VList []))))
            "user" "pass" "http://localhost:8000" world0)
     = Returned VNone
  /\ fst (cast_vote (always_answers (mkResponse 201 "Created" "" (Json (VList []))))
            1 2 "token" "http://localhost:8000" world0)
     = Returned VNone
  /\ fst (get_poll_results
            (always_answers (mkResponse 201 "Created" "" (Json (VList []))))
            1 "http://localhost:8000" world0)
     = Returned VNone.
Proof.
  apply (wrappers_return_None_outside_error_codes (fun _ => "")
           (mkResponse 201 "Created" "" (Json (VList []))) world0
           0 10 "user" "pass" 1 2 "token" "http://localhost:8000").
  - cbn. lia.
  - left. cbn. lia.
Defined.

(** ** Distinguished failure codes (C8) *)

(** [cast_vote] on 401 and on 404. *)
Lemma cast_vote_401_404 net poll_id option_id token base_url w r :
  net (List.length (sent w))
      (PostJson (base_url ++ "/polls/" ++ str_int poll_id ++ "/vote")
         (VDict [("option_id", VInt option_id)])
         [("Content-Type", "application/json");
          ("Authorization", "Bearer " ++ token)])
  = Answered r ->
  (status_code r = 401 ->
   fst (cast_vote net poll_id option_id token base_url w)
   = Raised (Exn ValueError "Unauthorized: Invalid or missing JWT token"))
  /\ (status_code r = 404 ->
      fst (cast_vote net poll_id option_id token base_url w)
      = Raised (Exn ValueError "Poll or option not found")).
Proof.
  intros Hnet.
  unfold cast_vote, try_except, bind, requests_send.
  rewrite Hnet. cbn.
  split; intros ->; reflexivity.
Qed.

(** [register_user] on 400, when the body is a JSON object or is not JSON
    at all: the message carries the [detail] field when there is one and
    the default text otherwise. *)
Lemma register_user_400_object_or_not_json
      py_repr net username password base_url w r :
  net (List.length (sent w))
      (PostJson (base_url ++ "/register")
         (VDict [("username", VStr username); ("password", VStr password)])
         [("Content-Type", "application/json")])
  = Answered r ->
  status_code r = 400 ->
  match body r with
  | Json (VDict d) =>
      fst (register_user py_repr net username password base_url w)
      = Raised (Exn ValueError
          ("Registration failed: "
           ++ match dict_get "detail" d with
              | Some detail => py_str py_repr detail
              | None => "Username already registered"
              end))
  | NotJson _ =>
      fst (register_user py_repr net username password base_url w)
      = Raised (Exn ValueError
          "Registration failed: Username already registered")
  | _ => True
  end.
Proof.
  intros Hnet Hst.
  unfold register_user, try_except, bind, requests_send.
  rewrite Hnet. cbn. rewrite Hst. cbn.
  unfold response_json.
  destruct (body r) as [[| | | | |d]|err|err|err]; cbn;
    try exact I; try reflexivity.
  destruct (dict_get "detail" d); reflexivity.
Qed.

(** The scenario of the specification. *)
Example register_user_400_scenario py_repr :
  fst (register_user py_repr
         (always_answers
            (mkResponse 400 "Bad Request" "http://localhost:8000/register"
               (Json (VDict [("detail", VStr "Username already registered")]))))
         "alice" "secret" "http://localhost:8000" world0)
  = Raised (Exn ValueError "Registration failed: Username already registered").
Proof. reflexivity. Qed.

(** C8, on the code: a status-400 response whose body is JSON but is
    [null], a boolean or a number makes ["detail" in error_data] raise
    [TypeError]; only [json.JSONDecodeError] is caught around it, so
    [register_user] raises that [TypeError] and not the [ValueError] with
    the default message. *)
Theorem register_user_400_scalar_body_raises_TypeError
        py_repr net username password base_url w r :
  net (List.length (sent w))
      (PostJson (base_url ++ "/register")
         (VDict [("username", VStr username); ("password", VStr password)])
         [("Content-Type", "application/json")])
  = Answered r ->
  status_code r = 400 ->
  body r = Json VNone \/ (exists b, body r = Json (VBool b))
  \/ (exists n, body r = Json (VInt n)) ->
  fst (register_user py_repr net username password base_url w)
  = Raised (Exn TypeError "argument is not iterable").
Proof.
  intros Hnet Hst Hbody.
  unfold register_user, try_except, bind, requests_send.
  rewrite Hnet. cbn. rewrite Hst. cbn.
  unfold response_json.
  destruct Hbody as [Hb | [[b Hb] | [n Hb]]]; rewrite Hb; reflexivity.
Qed.

Lemma register_user_400_scalar_body_raises_TypeError_witness :
  fst (register_user (fun _ => "")
         (always_answers
            (mkResponse 400 "Bad Request" "http://localhost:8000/register"
               (Json VNone)))
         "alice" "secret" "http://localhost:8000" world0)
  = Raised (Exn TypeError "argument is not iterable").
Proof.
  apply (register_user_400_scalar_body_raises_TypeError (fun _ => "")
           (always_answers
              (mkResponse 400 "Bad Request" "http://localhost:8000/register"
                 (Json VNone)))
           "alice" "secret" "http://localhost:8000" world0
           (mkResponse 400 "Bad Request" "http://localhost:8000/register"
              (Json VNone))).
  - reflexivity.
  - reflexivity.
  - left. reflexivity.
Defined.

(** ** The login helper (C10) *)

(** C10: [get_vote_token] never raises.  It issues one request and returns
    a value in every case: on a 200 answer whose body is a JSON object, the
    [access_token] field ([None] when absent), printing nothing; on a 200
    answer with any other body (decoding may also fail with [ValueError]
    or [RecursionError]), on any other status and on any exception of the
    request, [None] after one diagnostic line. *)
Theorem get_vote_token_never_raises net username password base_url w :
  exists token w',
    get_vote_token net username password base_url w = (Returned token, w')
    /\ sent w'
       = (sent w
          ++ [PostForm (base_url ++ "/login")
                [("username", username); ("password", password)]
                [("Content-Type", "application/x-www-form-urlencoded")]])%list
    /\ match net (List.length (sent w))
               (PostForm (base_url ++ "/login")
                  [("username", username); ("password", password)]
                  [("Content-Type", "application/x-www-form-urlencoded")])
       with
       | Answered r =>
           if status_code r =? 200 then
             match body r with
             | Json (VDict d) =>
                 token = match dict_get "access_token" d with
                         | Some v => v
                         | None => VNone
                         end
                 /\ stdout w' = stdout w
             | Json _ =>
                 token = VNone
                 /\ exists msg, stdout w'
                                = (stdout w ++ [("Login error: " ++ msg)%string])%list
             | NotJson err =>
                 token = VNone
                 /\ stdout w' = (stdout w ++ [("Login error: " ++ err)%string])%list
             | IntTooLong err | TooDeep err =>
                 token = VNone
                 /\ stdout w' = (stdout w ++ [("Login error: " ++ err)%string])%list
             end
           else
             token = VNone
             /\ stdout w'
                = (stdout w
                   ++ [("Login failed: " ++ str_int (status_code r))%string])%list
       | Failed e =>
           token = VNone
           /\ stdout w' = (stdout w ++ [("Login error: " ++ exn_str e)%string])%list
       end.
Proof.
  unfold get_vote_token, try_except, bind, requests_send.
  destruct (net _ _) as [r | e]; cbn.
  - destruct (status_code r =? 200).
    + unfold response_json.
      destruct (body r) as [[| | | | |d]|err|err|err]; cbn;
        eexists _, _; (split; [reflexivity|]); cbn;
        (split; [reflexivity|]); split; try reflexivity;
        eexists; reflexivity.
    + cbn. eexists _, _. repeat split.
  - eexists _, _. repeat split.
Qed.

(** ** The ranking (C7) *)

Section SortedFacts.
Context {A : Type}.
Variable key : A -> Z.

(** Descending order of keys. *)
Let desc (a b : A) : Prop := key b <= key a.

(** The elements whose key is [c], in list order. *)
Let with_key (c : Z) (l : list A) : list A :=
  filter (fun a => key a =? c) l.

Lemma insert_reverse_perm x l :
  Permutation (x :: l) (insert_reverse key x l).
Proof.
  induction l as [|y l IH]; cbn; [reflexivity|].
  destruct (key x <? key y); [|reflexivity].
  rewrite perm_swap. apply perm_skip. exact IH.
Qed.

Lemma sorted_reverse_perm l : Permutation l (sorted_reverse key l).
Proof.
  induction l as [|x l IH]; cbn; [reflexivity|].
  rewrite <- insert_reverse_perm. apply perm_skip. exact IH.
Qed.

Lemma insert_reverse_sorted x l :
  StronglySorted desc l -> StronglySorted desc (insert_reverse key x l).
Proof.
  induction 1 as [|y l Hsorted IH Hy]; cbn.
  - constructor; constructor.
  - destruct (Z.ltb_spec (key x) (key y)) as [Hlt | Hge].
    + constructor; [exact IH|].
      rewrite <- insert_reverse_perm. constructor; [unfold desc; lia | exact Hy].
    + constructor; [constructor; assumption|].
      constructor; [exact Hge|].
      eapply Forall_impl; [|exact Hy]. unfold desc. intros a Ha. lia.
Qed.

Lemma sorted_reverse_sorted l : StronglySorted desc (sorted_reverse key l).
Proof.
  induction l as [|x l IH]; cbn; [constructor|].
  apply insert_reverse_sorted. exact IH.
Qed.

(** Insertion never moves an element past one with the same key. *)
Lemma insert_reverse_with_key c x l :
  with_key c (insert_reverse key x l) = with_key c (x :: l).
Proof.
  induction l as [|y l IH]; [reflexivity|].
  cbn [insert_reverse].
  destruct (Z.ltb_spec (key x) (key y)) as [Hlt | Hge]; [|reflexivity].
  unfold with_key in *. cbn [filter] in *. rewrite IH.
  destruct (Z.eqb_spec (key x) c), (Z.eqb_spec (key y) c);
    try reflexivity; lia.
Qed.

Lemma sorted_reverse_with_key c l :
  with_key c (sorted_reverse key l) = with_key c l.
Proof.
  induction l as [|x l IH]; [reflexivity|].
  cbn [sorted_reverse]. rewrite insert_reverse_with_key.
  unfold with_key in *. cbn [filter]. rewrite IH. reflexivity.
Qed.

Lemma with_key_in c a l : In a (with_key c l) -> In a l /\ key a = c.
Proof.
  unfold with_key. rewrite filter_In. intros [Hin Hk].
  split; [exact Hin | apply Z.eqb_eq; exact Hk].
Qed.

(** Two descending lists that agree key by key are equal: a stable sort
    has only one possible result. *)
Lemma stable_sort_unique l1 :
  forall l2,
    StronglySorted desc l1 -> StronglySorted desc l2 ->
    (forall c, with_key c l1 = with_key c l2) ->
    l1 = l2.
Proof.
  induction l1 as [|a l1 IH]; intros l2 H1 H2 Hkeys.
  - destruct l2 as [|b l2]; [reflexivity|].
    specialize (Hkeys (key b)). unfold with_key in Hkeys. cbn in Hkeys.
    rewrite Z.eqb_refl in Hkeys. discriminate.
  - destruct l2 as [|b l2].
    + specialize (Hkeys (key a)). unfold with_key in Hkeys. cbn in Hkeys.
      rewrite Z.eqb_refl in Hkeys. discriminate.
    + apply StronglySorted_inv in H1 as [H1 Ha].
      apply StronglySorted_inv in H2 as [H2 Hb].
      rewrite Forall_forall in Ha, Hb.
      assert (Hab : key a = key b).
      { apply Z.le_antisymm.
        - assert (Hin : In a (with_key (key a) (b :: l2))).
          { rewrite <- Hkeys. unfold with_key. cbn.
            rewrite Z.eqb_refl. left. reflexivity. }
          apply with_key_in in Hin as [[<- | Hin] _]; [lia|].
          apply Hb. exact Hin.
        - assert (Hin : In b (with_key (key b) (a :: l1))).
          { rewrite Hkeys. unfold with_key. cbn.
            rewrite Z.eqb_refl. left. reflexivity. }
          apply with_key_in in Hin as [[<- | Hin] _]; [lia|].
          apply Ha. exact Hin. }
      assert (Hhead : a = b).
      { specialize (Hkeys (key a)). unfold with_key in Hkeys. cbn in Hkeys.
        rewrite <- Hab, Z.eqb_refl in Hkeys. congruence. }
      subst b. f_equal. apply IH; try assumption.
      intros c. specialize (Hkeys c). unfold with_key in *. cbn in Hkeys.
      destruct (key a =? c); congruence.
Qed.

End SortedFacts.

(** The stable descending sort, for the key [print_poll_results] uses. *)
Lemma sorted_reverse_is_stable_sort (results_data : list OptionResult) :
  Permutation results_data (sorted_reverse get_vote_count results_data)
  /\ StronglySorted (fun a b => get_vote_count b <= get_vote_count a)
       (sorted_reverse get_vote_count results_data)
  /\ (forall c,
        filter (fun o => get_vote_count o =? c)
               (sorted_reverse get_vote_count results_data)
        = filter (fun o => get_vote_count o =? c) results_data).
Proof.
  split; [apply sorted_reverse_perm|].
  split; [apply sorted_reverse_sorted|].
  intros c. apply sorted_reverse_with_key.
Qed.

(** ** What [print_poll_results] reads and computes *)

(** The key function of the code reads the [vote_count] field. *)
Lemma get_vote_count_field x : get_vote_count x = votes_field x.
Proof. reflexivity. Qed.

Lemma fold_left_add_shift l a : fold_left Z.add l a = a + fold_left Z.add l 0.
Proof.
  revert a. induction l as [|x l IH]; intros a; cbn; [lia|].
  rewrite (IH (a + x)), (IH x). lia.
Qed.

Lemma py_sum_cons x l : py_sum (x :: l) = x + py_sum l.
Proof. unfold py_sum. cbn. apply fold_left_add_shift. Qed.

Lemma py_sum_perm l l' : Permutation l l' -> py_sum l = py_sum l'.
Proof.
  induction 1; rewrite ?py_sum_cons; lia.
Qed.

(** [sum(...)], adding from the left, is the total of the fields. *)
Lemma py_sum_votes (l : list OptionResult) :
  py_sum (map get_vote_count l) = votes_total l.
Proof.
  induction l as [|x l IH]; [reflexivity|].
  cbn [map]. rewrite py_sum_cons, IH. reflexivity.
Qed.

Lemma votes_total_cons x l :
  votes_total (x :: l) = votes_field x + votes_total l.
Proof. reflexivity. Qed.

Lemma votes_total_perm l l' :
  Permutation l l' -> votes_total l = votes_total l'.
Proof.
  induction 1; rewrite ?votes_total_cons; lia.
Qed.

Lemma float_overflow_gt_1 : 1 < 2 ^ 1024 - 2 ^ 970.
Proof. vm_compute. reflexivity. Qed.

(** The conditional expression divides only by a positive total; when the
    quotient fits a float it yields the ratio, and 0 when the total is not
    positive. *)
Lemma percentage_value vote_count total_votes w :
  (0 < total_votes -> fits_float vote_count total_votes) ->
  percentage vote_count total_votes w
  = (Returned (if total_votes >? 0
               then (inject_Z vote_count / inject_Z total_votes * 100)%Q
               else 0%Q), w).
Proof.
  intros Hfits. unfold percentage, py_truediv, bind, ret.
  destruct (total_votes >? 0) eqn:Hpos; [|reflexivity].
  apply Z.gtb_lt in Hpos.
  replace (total_votes =? 0) with false
    by (symmetry; apply Z.eqb_neq; lia).
  replace (Z.abs vote_count <? float_overflow * Z.abs total_votes) with true
    by (symmetry; apply Z.ltb_lt; exact (Hfits Hpos)).
  reflexivity.
Qed.

(** The percentages of a list of options add up to the share of their
    votes in the total. *)
Lemma Qsum_percentages total_votes (l : list OptionResult) :
  total_votes <> 0 ->
  (Qsum (map (fun o => inject_Z (votes_field o) / inject_Z total_votes * 100) l)
   == inject_Z (votes_total l) / inject_Z total_votes * 100)%Q.
Proof.
  intros Hnz.
  assert (Hq : ~ (inject_Z total_votes == 0)%Q).
  { unfold Qeq. cbn. lia. }
  induction l as [|o l IH].
  - cbn. field. exact Hq.
  - cbn [map Qsum fold_right].
    fold (Qsum (map (fun o => inject_Z (votes_field o)
                              / inject_Z total_votes * 100) l))%Q.
    rewrite IH, votes_total_cons, inject_Z_plus. field. exact Hq.
Qed.

Lemma format_int_printable n w :
  printable_int n -> format_int n w = (Returned (str_int n), w).
Proof.
  intros Hn. unfold format_int.
  replace (Z.abs n <? 10 ^ int_max_str_digits) with true
    by (symmetry; apply Z.ltb_lt; exact Hn).
  reflexivity.
Qed.

Lemma format_int_or_NA_printable o w :
  printable_field o -> format_int_or_NA o w = (Returned (int_or_NA o), w).
Proof.
  destruct o as [n|]; cbn [printable_field format_int_or_NA int_or_NA];
    [apply format_int_printable | reflexivity].
Qed.

Lemma printable_int_between n m :
  0 <= n <= m -> printable_int m -> printable_int n.
Proof.
  unfold printable_int. generalize (10 ^ 4300). intros bound Hn Hm. lia.
Qed.

(** The percentage the loop shows for an option. *)
Lemma for_enumerate_print_option format_1f total_votes ranking :
  forall i w,
    0 <= i ->
    printable_int (i + Z.of_nat (List.length ranking) - 1) ->
    Forall (fun x =>
              printable_field (option_id x)
              /\ printable_int (votes_field x)
              /\ (0 < total_votes -> fits_float (votes_field x) total_votes))
           ranking ->
    for_enumerate i ranking (print_option format_1f total_votes) w
    = (Returned tt,
       mkWorld (sent w)
         (stdout w
          ++ ranking_blocks format_1f i ranking
               (map (fun o => if total_votes >? 0
                              then (inject_Z (votes_field o)
                                    / inject_Z total_votes * 100)%Q
                              else 0%Q) ranking))%list).
Proof.
  induction ranking as [|o ranking IH]; intros i w Hi Hlen Hall.
  - cbn. rewrite app_nil_r. destruct w; reflexivity.
  - apply Forall_cons_iff in Hall as [(Hid & Hvotes & Hfits) Hall].
    assert (Hrank : printable_int i).
    { apply (printable_int_between i _) in Hlen; [exact Hlen|].
      cbn [List.length]. lia. }
    cbn [for_enumerate map ranking_blocks].
    unfold bind at 1. unfold print_option at 1.
    unfold bind at 1.
    rewrite (percentage_value _ _ _ Hfits).
    unfold bind at 1. rewrite (format_int_printable _ _ Hrank).
    unfold bind at 1. unfold print at 1.
    unfold bind at 1. rewrite get_vote_count_field.
    rewrite (format_int_printable _ _ Hvotes).
    unfold bind at 1. unfold print at 1.
    unfold bind at 1. cbn [sent stdout].
    rewrite (format_int_or_NA_printable _ _ Hid).
    cbn [bind print sent stdout].
    rewrite IH; [| lia | | exact Hall].
    + cbn [sent stdout]. unfold option_block.
      rewrite <- !app_assoc. reflexivity.
    + replace (i + 1 + Z.of_nat (List.length ranking) - 1)
        with (i + Z.of_nat (List.length (o :: ranking)) - 1)
        by (cbn [List.length]; lia).
      exact Hlen.
Qed.

Lemma Forall2_map_right {A B} (P : A -> B -> Prop) (f : A -> B) l :
  (forall a, P a (f a)) -> Forall2 P l (map f l).
Proof.
  intros HP. induction l as [|a l IH]; cbn; constructor; auto.
Qed.

(** On displayable results the report is complete: the header, then the
    blocks of the options in the order of the sort, each with its
    percentage. *)
Lemma print_poll_results_run format_1f pid qn o rest w :
  displayable pid (o :: rest) ->
  print_poll_results format_1f (mkResults pid qn (Some (o :: rest))) w
  = (Returned tt,
     mkWorld (sent w)
       (stdout w
        ++ report_header pid qn (o :: rest)
        ++ ranking_blocks format_1f 1
             (sorted_reverse get_vote_count (o :: rest))
             (map (fun x => if votes_total (o :: rest) >? 0
                            then (inject_Z (votes_field x)
                                  / inject_Z (votes_total (o :: rest)) * 100)%Q
                            else 0%Q)
                  (sorted_reverse get_vote_count (o :: rest))))%list).
Proof.
  intros (Hpid & Htotal & Hlen & Hall).
  pose proof (sorted_reverse_perm get_vote_count (o :: rest)) as Hperm.
  unfold print_poll_results.
  replace (results_falsy (mkResults pid qn (Some (o :: rest)))) with false
    by (destruct pid, qn; reflexivity).
  cbn [results poll_id question].
  unfold bind at 1. rewrite (format_int_or_NA_printable _ _ Hpid).
  unfold bind at 1. unfold print at 1.
  unfold bind at 1. unfold print at 1.
  rewrite py_sum_votes.
  unfold bind at 1. cbn [sent stdout].
  rewrite (format_int_printable _ _ Htotal).
  unfold bind at 1. unfold print at 1.
  unfold bind at 1. unfold print at 1. cbn [sent stdout].
  rewrite for_enumerate_print_option.
  - cbn [sent stdout]. unfold report_header.
    rewrite <- !app_assoc. reflexivity.
  - lia.
  - rewrite <- (Permutation_length Hperm).
    replace (1 + Z.of_nat (List.length (o :: rest)) - 1)
      with (Z.of_nat (List.length (o :: rest))) by lia.
    exact Hlen.
  - apply (Permutation_Forall Hperm). exact Hall.
Qed.

(** Results with small, non-negative counts are displayable. *)
Lemma displayable_counts pid (results_data : list OptionResult) :
  printable_field pid ->
  printable_int (votes_total results_data) ->
  printable_int (Z.of_nat (List.length results_data)) ->
  Forall (fun x => printable_field (option_id x) /\ 0 <= votes_field x)
         results_data ->
  displayable pid results_data.
Proof.
  intros Hpid Htotal Hlen Hall.
  assert (Hle : forall x, In x results_data ->
                  0 <= votes_field x <= votes_total results_data).
  { clear -Hall. induction Hall as [|y l [_ Hy] Hall IH]; [contradiction|].
    assert (0 <= votes_total l).
    { clear -Hall. induction Hall as [|z l [_ Hz] Hall IH];
        [cbn; lia | rewrite votes_total_cons; lia]. }
    rewrite votes_total_cons. intros x [<- | Hx]; [lia|].
    specialize (IH x Hx). lia. }
  repeat split; try assumption.
  rewrite Forall_forall in Hall |- *. intros x Hx.
  destruct (Hall x Hx) as [Hid _]. specialize (Hle x Hx).
  split; [exact Hid|]. split.
  - apply (printable_int_between _ (votes_total results_data));
      [exact Hle | exact Htotal].
  - intros Hpos. unfold fits_float.
    pose proof float_overflow_gt_1 as Hbig.
    revert Hbig. generalize (2 ^ 1024 - 2 ^ 970). intros big Hbig.
    rewrite !Z.abs_eq by lia. nia.
Qed.

(** ** The ranking (C7) *)

(** C7: on displayable results, the blocks [print_poll_results] prints
    below the header are those of a list [ranking], numbered from 1, and
    that list is the input sorted by descending [vote_count] with
    stability: it is a rearrangement of the input, no option is followed
    by one with more votes, and for every vote count the options having it
    come in their input order.  It is the only list that is descending and
    keeps, for every vote count, the input order. *)
Theorem ranking_is_stable_descending_sort
        format_1f pid qn (o : OptionResult) rest w :
  displayable pid (o :: rest) ->
  exists ranking pcts,
    print_poll_results format_1f (mkResults pid qn (Some (o :: rest))) w
    = (Returned tt,
       mkWorld (sent w)
         (stdout w
          ++ report_header pid qn (o :: rest)
          ++ ranking_blocks format_1f 1 ranking pcts)%list)
    /\ List.length pcts = List.length ranking
    /\ Permutation (o :: rest) ranking
    /\ StronglySorted (fun a b => votes_field b <= votes_field a) ranking
    /\ (forall c,
          filter (fun x => votes_field x =? c) ranking
          = filter (fun x => votes_field x =? c) (o :: rest))
    /\ (forall other,
          StronglySorted (fun a b => votes_field b <= votes_field a) other ->
          (forall c,
             filter (fun x => votes_field x =? c) other
             = filter (fun x => votes_field x =? c) (o :: rest)) ->
          other = ranking).
Proof.
  intros Hdisp.
  destruct (sorted_reverse_is_stable_sort (o :: rest))
    as (Hperm & Hsorted & Hstable).
  eexists _, _. split; [exact (print_poll_results_run _ _ _ _ _ _ Hdisp)|].
  split; [apply length_map|].
  split; [exact Hperm|].
  split; [exact Hsorted|].
  split; [exact Hstable|].
  intros other Hother Hsame.
  apply (stable_sort_unique get_vote_count); try assumption.
  intros c. change (fun a => get_vote_count a =? c)
              with (fun x => votes_field x =? c).
  rewrite Hsame, <- Hstable. reflexivity.
Qed.

Lemma ranking_is_stable_descending_sort_witness :
  exists ranking pcts,
    print_poll_results (fun _ => "")
      (mkResults (Some 7) (Some "Colour?")
         (Some [mkOption (Some 1) (Some "red") (Some 3);
                mkOption (Some 2) (Some "green") (Some 5);
                mkOption (Some 3) (Some "blue") (Some 3)]))
      world0
    = (Returned tt,
       mkWorld (sent world0)
         (stdout world0
          ++ report_header (Some 7) (Some "Colour?")
               [mkOption (Some 1) (Some "red") (Some 3);
                mkOption (Some 2) (Some "green") (Some 5);
                mkOption (Some 3) (Some "blue") (Some 3)]
          ++ ranking_blocks (fun _ => "") 1 ranking pcts)%list)
    /\ List.length pcts = List.length ranking
    /\ Permutation
         [mkOption (Some 1) (Some "red") (Some 3);
          mkOption (Some 2) (Some "green") (Some 5);
          mkOption (Some 3) (Some "blue") (Some 3)]
         ranking
    /\ StronglySorted (fun a b => votes_field b <= votes_field a) ranking.
Proof.
  destruct (ranking_is_stable_descending_sort (fun _ => "")
              (Some 7) (Some "Colour?")
              (mkOption (Some 1) (Some "red") (Some 3))
              [mkOption (Some 2) (Some "green") (Some 5);
               mkOption (Some 3) (Some "blue") (Some 3)]
              world0)
    as (ranking & pcts & Hrun & Hlen & Hperm & Hsorted & _).
  - apply displayable_counts.
    + vm_compute. reflexivity.
    + vm_compute. reflexivity.
    + vm_compute. reflexivity.
    + repeat constructor; vm_compute; discriminate.
  - exists ranking, pcts. repeat split; assumption.
Defined.

(** ** Percentages (C6) *)

(** C6: on displayable results (in particular whenever the vote counts
    are non-negative and of ordinary size), [print_poll_results] raises
    nothing (no division has a zero divisor) and prints, below the header
    with the total of the [vote_count] fields, the block of each option
    with a percentage [pct].  When the total is zero (or negative) every
    [pct] is 0; when it is positive each [pct] is
    [vote_count / total * 100] and the percentages add up to exactly 100,
    in rational arithmetic. *)
Theorem print_poll_results_percentages
        format_1f pid qn (o : OptionResult) (rest : list OptionResult) w :
  displayable pid (o :: rest) ->
  exists ranking pcts,
    Permutation (o :: rest) ranking
    /\ List.length pcts = List.length ranking
    /\ print_poll_results format_1f (mkResults pid qn (Some (o :: rest))) w
       = (Returned tt,
          mkWorld (sent w)
            (stdout w
             ++ report_header pid qn (o :: rest)
             ++ ranking_blocks format_1f 1 ranking pcts)%list)
    /\ (votes_total (o :: rest) <= 0 -> Forall (fun pct => pct = 0%Q) pcts)
    /\ (0 < votes_total (o :: rest) ->
        Forall2 (fun x pct =>
                   (pct == inject_Z (votes_field x)
                           / inject_Z (votes_total (o :: rest)) * 100)%Q)
                ranking pcts
        /\ (Qsum pcts == 100)%Q).
Proof.
  intros Hdisp.
  pose proof (sorted_reverse_perm get_vote_count (o :: rest)) as Hperm.
  eexists _, _. split; [exact Hperm|].
  split; [apply length_map|].
  split; [exact (print_poll_results_run _ _ _ _ _ _ Hdisp)|].
  set (total := votes_total (o :: rest)) in *.
  split.
  - intros Hle.
    replace (total >? 0) with false
      by (symmetry; rewrite Z.gtb_ltb; apply Z.ltb_ge; exact Hle).
    apply Forall_forall. intros q Hq. apply in_map_iff in Hq as (a & <- & _).
    reflexivity.
  - intros Hpos.
    replace (total >? 0) with true
      by (symmetry; apply Z.gtb_lt; exact Hpos).
    split.
    + apply Forall2_map_right. intros a. reflexivity.
    + rewrite Qsum_percentages by (apply Z.neq_sym, Z.lt_neq; exact Hpos).
      rewrite <- (votes_total_perm _ _ Hperm). fold total.
      field. unfold Qeq. cbn.
      rewrite Z.mul_1_r. apply Z.neq_sym, Z.lt_neq. exact Hpos.
Qed.

(** Three votes for red and five for green: 37.5 % and 62.5 %. *)
Lemma print_poll_results_percentages_witness :
  exists ranking pcts,
    Permutation
      [mkOption (Some 1) (Some "red") (Some 3);
       mkOption (Some 2) (Some "green") (Some 5)]
      ranking
    /\ List.length pcts = List.length ranking
    /\ print_poll_results (fun _ => "")
         (mkResults (Some 7) (Some "Colour?")
            (Some [mkOption (Some 1) (Some "red") (Some 3);
                   mkOption (Some 2) (Some "green") (Some 5)]))
         world0
       = (Returned tt,
          mkWorld (sent world0)
            (stdout world0
             ++ report_header (Some 7) (Some "Colour?")
                  [mkOption (Some 1) (Some "red") (Some 3);
                   mkOption (Some 2) (Some "green") (Some 5)]
             ++ ranking_blocks (fun _ => "") 1 ranking pcts)%list)
    /\ Forall2 (fun x pct =>
                  (pct == inject_Z (votes_field x) / inject_Z 8 * 100)%Q)
               ranking pcts
    /\ (Qsum pcts == 100)%Q.
Proof.
  destruct (print_poll_results_percentages (fun _ => "")
              (Some 7) (Some "Colour?")
              (mkOption (Some 1) (Some "red") (Some 3))
              [mkOption (Some 2) (Some "green") (Some 5)]
              world0)
    as (ranking & pcts & Hperm & Hlen & Hrun & _ & Hpos).
  - apply displayable_counts.
    + vm_compute. reflexivity.
    + vm_compute. reflexivity.
    + vm_compute. reflexivity.
    + repeat constructor; vm_compute; discriminate.
  - destruct Hpos as [Hpcts Hsum]; [reflexivity|].
    exists ranking, pcts. repeat split; assumption.
Defined.

(** The report of that poll, line by line. *)
Example scenario_report :
  print_poll_results (fun q => if Qeq_bool q (75 # 2) then "37.5" else "62.5")
    (mkResults (Some 7) (Some "Colour?")
       (Some [mkOption (Some 1) (Some "red") (Some 3);
              mkOption (Some 2) (Some "green") (Some 5)]))
    world0
  = (Returned tt,
     mkWorld []
       ["Poll #7: Colour?";
        "==================================================";
        "Total votes: 8";
        "------------------------------";
        "1. green"; "   Votes: 5 (62.5%)"; "   Option ID: 2"; "";
        "2. red"; "   Votes: 3 (37.5%)"; "   Option ID: 1"; ""]).
Proof. vm_compute. reflexivity. Qed.

(** Counts whose quotient does not fit a float make the report stop with
    [OverflowError], after the header. *)
Example scenario_report_overflow :
  fst (print_poll_results (fun _ => "")
         (mkResults (Some 7) (Some "Colour?")
            (Some [mkOption (Some 1) (Some "red") (Some (10 ^ 310));
                   mkOption (Some 2) (Some "green") (Some (1 - 10 ^ 310))]))
         world0)
  = Raised (Exn OverflowError "integer division result too large for a float").
Proof. vm_compute. reflexivity. Qed.
(** ** Scenarios *)

(** 13 polls, page size 10: a page of 10, then a page of 3, then stop. *)
Example scenario_13_polls :
  fetch_all_polls 2 (dataset_server (map VInt (map Z.of_nat (seq 1 13))))
    "http://localhost:8000" 10 world0
  = Some (map VInt (map Z.of_nat (seq 1 13)),
          mkWorld [polls_request 0 10 "http://localhost:8000";
                   polls_request 10 10 "http://localhost:8000"] []).
Proof. reflexivity. Qed.

(** An empty dataset still costs one request. *)
Example scenario_no_polls :
  fetch_all_polls 1 (dataset_server []) "http://localhost:8000" 10 world0
  = Some ([], mkWorld [polls_request 0 10 "http://localhost:8000"] []).
Proof. reflexivity. Qed.

(** Vote casting answered with 401. *)
Example scenario_vote_401 :
  fst (cast_vote
         (always_answers (mkResponse 401 "Unauthorized" "" (NotJson "")))
         1 2 "expired" "http://localhost:8000" world0)
  = Raised (Exn ValueError "Unauthorized: Invalid or missing JWT token").
Proof. reflexivity. Qed.

(** A 500 answer becomes the generic [RequestException]. *)
Example scenario_fetch_500 :
  fst (fetch_polls
         (always_answers
            (mkResponse 500 "Internal Server Error"
               "http://localhost:8000/polls?skip=0&limit=10" (NotJson "")))
         0 10 "http://localhost:8000" world0)
  = Raised (Exn RequestException
      "Request failed: 500 Server Error: Internal Server Error for url: http://localhost:8000/polls?skip=0&limit=10").
Proof. reflexivity. Qed.

(** Ties keep their input order in the ranking. *)
Example scenario_ranking_ties :
  map text
    (sorted_reverse get_vote_count
       [mkOption (Some 1) (Some "red") (Some 3);
        mkOption (Some 2) (Some "green") (Some 5);
        mkOption (Some 3) (Some "blue") (Some 3);
        mkOption (Some 4) (Some "black") None;
        mkOption (Some 5) (Some "white") (Some 5)])
  = [Some "green"; Some "white"; Some "red"; Some "blue"; Some "black"].
Proof. reflexivity. Qed.

(** Login answered with 200 and a token. *)
Example scenario_login :
  fst (get_vote_token
         (always_answers
            (mkResponse 200 "OK" ""
               (Json (VDict [("access_token", VStr "abc");
                             ("token_type", VStr "bearer")]))))
         "alice" "secret" "http://localhost:8000" world0)
  = Returned (VStr "abc").
Proof. reflexivity. Qed.

(* ================================================================== *)
(** * Further properties of the code *)
(* ================================================================== *)

(** ** What the pagination driver returns and prints *)

(** The iteration that stops the loop: its page, if any, is kept, and the
    diagnostic is printed if the fetch raised. *)
Lemma loop_stop_result fuel net base_url batch_size all_polls skip w :
  stops batch_size (fst (fetch_polls net skip batch_size base_url w)) = true ->
  fetch_all_polls_loop (S fuel) net base_url batch_size all_polls skip w
  = Some ((all_polls
           ++ page_items (fst (fetch_polls net skip batch_size base_url w)))%list,
          mkWorld (sent w ++ [polls_request skip batch_size base_url])%list
                  (stdout w
                   ++ fetch_diagnostic skip
                        (fst (fetch_polls net skip batch_size base_url w)))%list).
Proof.
  intros Hstop.
  pose proof (fetch_polls_world net skip batch_size base_url w) as Hw.
  cbn [fetch_all_polls_loop].
  destruct (fetch_polls net skip batch_size base_url w) as [r w1].
  cbn [fst snd] in *. subst w1.
  destruct r as [[[|x batch]|]|e]; unfold stops in Hstop; try discriminate;
    cbn [page_items fetch_diagnostic print sent stdout];
    rewrite ?Hstop, ?app_nil_r; reflexivity.
Qed.

Lemma loop_result net base_url batch_size w fuel :
  forall j all_polls res w',
    fetch_all_polls_loop fuel net base_url batch_size all_polls
      (Z.of_nat j * batch_size) (after_fetches base_url batch_size w j)
    = Some (res, w') ->
    exists k,
      (j <= k)%nat
      /\ sent w' = sent (after_fetches base_url batch_size w (S k))
      /\ res = (all_polls
                ++ List.concat
                     (map (fun i => page_items
                                      (nth_page net base_url batch_size w i))
                          (seq j (S k - j))))%list
      /\ stdout w'
         = (stdout w
            ++ fetch_diagnostic (Z.of_nat k * batch_size)
                 (nth_page net base_url batch_size w k))%list.
Proof.
  induction fuel as [|fuel IH]; intros j all_polls res w' Hrun; [discriminate|].
  destruct (stops batch_size (nth_page net base_url batch_size w j)) eqn:Hj.
  - unfold nth_page in Hj.
    rewrite (loop_stop_result fuel _ _ _ _ _ _ Hj) in Hrun.
    injection Hrun as <- <-.
    exists j. split; [lia|]. cbn [sent stdout].
    split; [rewrite after_fetches_S; reflexivity|].
    replace (S j - j)%nat with 1%nat by lia.
    cbn [seq map List.concat]. rewrite app_nil_r.
    split; reflexivity.
  - destruct (loop_continue fuel net base_url batch_size all_polls _ _ Hj)
      as (batch & Hbatch & _ & _ & Heq).
    rewrite Heq, skip_succ, <- after_fetches_S in Hrun.
    destruct (IH _ _ _ _ Hrun) as (k & Hk & Hsent & Hres & Hout).
    exists k. split; [lia|]. split; [exact Hsent|]. split; [|exact Hout].
    replace (S k - j)%nat with (S (S k - S j)) by lia.
    cbn [seq map List.concat].
    fold (nth_page net base_url batch_size w j) in Hbatch.
    rewrite Hbatch. cbn [page_items].
    rewrite Hres, <- app_assoc. reflexivity.
Qed.

(** X1: whatever the collaborator, when [fetch_all_polls] returns, its
    result is the concatenation, in the order of the fetches, of the pages
    of all the fetches it made (a fetch that raised or yielded [None]
    contributes nothing). *)
Theorem fetch_all_polls_result_is_concatenation
        net base_url batch_size w fuel res w' :
  fetch_all_polls fuel net base_url batch_size w = Some (res, w') ->
  res = List.concat
          (map (fun i => page_items (nth_page net base_url batch_size w i))
               (seq 0 (List.length (sent w') - List.length (sent w)))).
Proof.
  intros Hrun. unfold fetch_all_polls in Hrun.
  pose proof (loop_result net base_url batch_size w fuel 0 [] res w') as H.
  rewrite after_fetches_0 in H. cbn [Z.of_nat Z.mul] in H.
  destruct (H Hrun) as (k & _ & Hsent & Hres & _).
  rewrite Hsent. unfold after_fetches, fetch_requests. cbn [sent].
  rewrite length_app, length_map, length_seq.
  replace (List.length (sent w) + S k - List.length (sent w))%nat
    with (S k - 0)%nat by lia.
  exact Hres.
Qed.

Lemma fetch_all_polls_result_is_concatenation_witness :
  [VStr "a"; VStr "b"]
  = List.concat
      (map (fun i => page_items
                       (nth_page
                          (failing_after 1 [VStr "a"; VStr "b"]
                             (Exn ConnectionError "Connection refused"))
                          "http://localhost:8000" 2 world0 i))
           (seq 0 (List.length
                     [polls_request 0 2 "http://localhost:8000";
                      polls_request 2 2 "http://localhost:8000"]
                   - List.length (sent world0)))).
Proof.
  apply (fetch_all_polls_result_is_concatenation
           (failing_after 1 [VStr "a"; VStr "b"]
              (Exn ConnectionError "Connection refused"))
           "http://localhost:8000" 2 world0 2 [VStr "a"; VStr "b"]
           (mkWorld [polls_request 0 2 "http://localhost:8000";
                     polls_request 2 2 "http://localhost:8000"]
              ["Error fetching polls batch starting at 2: Request failed: Connection refused"])).
  reflexivity.
Defined.

(** X2: when [fetch_all_polls] returns it has made at least one fetch, and
    it has printed nothing unless its last fetch raised; in that case it
    has printed exactly one line, naming the [skip] of that fetch and the
    exception. *)
Theorem fetch_all_polls_prints_only_on_failure
        net base_url batch_size w fuel res w' :
  fetch_all_polls fuel net base_url batch_size w = Some (res, w') ->
  exists k,
    List.length (sent w') = (List.length (sent w) + S k)%nat
    /\ stdout w'
       = (stdout w
          ++ fetch_diagnostic (Z.of_nat k * batch_size)
               (nth_page net base_url batch_size w k))%list.
Proof.
  intros Hrun. unfold fetch_all_polls in Hrun.
  pose proof (loop_result net base_url batch_size w fuel 0 [] res w') as H.
  rewrite after_fetches_0 in H. cbn [Z.of_nat Z.mul] in H.
  destruct (H Hrun) as (k & _ & Hsent & _ & Hout).
  exists k. split; [|exact Hout].
  rewrite Hsent. unfold after_fetches, fetch_requests. cbn [sent].
  rewrite length_app, length_map, length_seq. reflexivity.
Qed.

Lemma fetch_all_polls_prints_only_on_failure_witness :
  exists k,
    List.length [polls_request 0 10 "http://localhost:8000";
                 polls_request 10 10 "http://localhost:8000"]
    = (List.length (sent world0) + S k)%nat
    /\ @nil string
       = (stdout world0
          ++ fetch_diagnostic (Z.of_nat k * 10)
               (nth_page (dataset_server (map VInt (map Z.of_nat (seq 1 13))))
                  "http://localhost:8000" 10 world0 k))%list.
Proof.
  apply (fetch_all_polls_prints_only_on_failure
           (dataset_server (map VInt (map Z.of_nat (seq 1 13))))
           "http://localhost:8000" 10 world0 2
           (map VInt (map Z.of_nat (seq 1 13)))
           (mkWorld [polls_request 0 10 "http://localhost:8000";
                     polls_request 10 10 "http://localhost:8000"] [])).
  reflexivity.
Defined.

(** ** What [fetch_polls] returns and raises *)

Lemma http_error_msg_None_inv r :
  http_error_msg r = None -> status_code r < 400 \/ 600 <= status_code r.
Proof.
  unfold http_error_msg.
  destruct (Z.leb_spec 400 (status_code r)), (Z.ltb_spec (status_code r) 500),
    (Z.leb_spec 500 (status_code r)), (Z.ltb_spec (status_code r) 600);
    cbn; intros Hmsg; try discriminate; lia.
Qed.

(** X3: a list returned by [fetch_polls] is the decoded body of a 200
    answer, unchanged; [None] is returned only for an answer whose status
    is neither 200 nor in 400..599. *)
Theorem fetch_polls_returns_only_server_data
        net skip limit base_url w res :
  fst (fetch_polls net skip limit base_url w) = Returned res ->
  exists r,
    net (List.length (sent w)) (polls_request skip limit base_url) = Answered r
    /\ match res with
       | Some polls => status_code r = 200 /\ body r = Json (VList polls)
       | None => status_code r <> 200
                 /\ (status_code r < 400 \/ 600 <= status_code r)
       end.
Proof.
  unfold fetch_polls, try_except, bind, requests_send.
  destruct (net _ _) as [r | e0]; cbn.
  - intros H. exists r. split; [reflexivity|].
    destruct (Z.eqb_spec (status_code r) 200) as [Hst | Hst].
    + unfold response_json in H.
      destruct (body r) as [v | err | err | err]; cbn in H;
        try discriminate.
      destruct v; cbn in H; try discriminate.
      injection H as <-. split; [exact Hst | reflexivity].
    + unfold raise_for_status in H.
      destruct (http_error_msg r) eqn:Hmsg; cbn in H; [discriminate|].
      injection H as <-. split; [exact Hst|].
      apply http_error_msg_None_inv. exact Hmsg.
  - destruct (is_RequestException e0); cbn; discriminate.
Qed.

Lemma fetch_polls_returns_only_server_data_witness :
  exists r,
    dataset_server [VInt 1; VInt 2; VInt 3] (List.length (sent world0))
      (polls_request 1 10 "http://localhost:8000") = Answered r
    /\ status_code r = 200 /\ body r = Json (VList [VInt 2; VInt 3]).
Proof.
  apply (fetch_polls_returns_only_server_data
           (dataset_server [VInt 1; VInt 2; VInt 3])
           1 10 "http://localhost:8000" world0 (Some [VInt 2; VInt 3])).
  reflexivity.
Defined.

(** X4: an exception leaving [fetch_polls] is of one of four kinds: a
    plain [RequestException] whose text starts with "Request failed: "
    (transport failures, error statuses and 200 bodies that are not JSON
    are all re-raised in this form); the [ValueError] for a 200 answer
    whose JSON is not a list, which is not wrapped; the [ValueError] or
    [RecursionError] that decoding a 200 body raised (an integer literal
    too long, a nesting too deep), not wrapped either; or an exception of
    the transport that is not a [RequestException], passed through
    unchanged. *)
Theorem fetch_polls_exception_kinds net skip limit base_url w e :
  fst (fetch_polls net skip limit base_url w) = Raised e ->
  (exn_cls e = RequestException
   /\ exists m, exn_str e = "Request failed: " ++ m)
  \/ (e = Exn ValueError
            "Expected a list of polls, but received a different data type"
      /\ exists r v,
           net (List.length (sent w)) (polls_request skip limit base_url)
           = Answered r
           /\ status_code r = 200 /\ body r = Json v
           /\ forall polls, v <> VList polls)
  \/ (exists r err,
        net (List.length (sent w)) (polls_request skip limit base_url)
        = Answered r
        /\ status_code r = 200
        /\ ((body r = IntTooLong err /\ e = Exn ValueError err)
            \/ (body r = TooDeep err /\ e = Exn RecursionError err)))
  \/ (net (List.length (sent w)) (polls_request skip limit base_url) = Failed e
      /\ is_RequestException e = false).
Proof.
  unfold fetch_polls, try_except, bind, requests_send.
  destruct (net _ _) as [r | e0]; cbn.
  - destruct (Z.eqb_spec (status_code r) 200) as [Hst | Hst].
    + unfold response_json.
      destruct (body r) as [v | err | err | err] eqn:Hbody; cbn.
      * destruct v; cbn; intros H; try discriminate;
          injection H as <-; right; left; (split; [reflexivity|]);
          eexists r, _; repeat split; try eassumption; discriminate.
      * intros H. injection H as <-. left. split; [reflexivity|].
        eexists. reflexivity.
      * intros H. injection H as <-. right. right. left.
        exists r, err. split; [reflexivity|]. split; [exact Hst|].
        left. split; [exact Hbody | reflexivity].
      * intros H. injection H as <-. right. right. left.
        exists r, err. split; [reflexivity|]. split; [exact Hst|].
        right. split; [exact Hbody | reflexivity].
    + unfold raise_for_status.
      destruct (http_error_msg r); cbn; intros H; [|discriminate].
      injection H as <-. left. split; [reflexivity|]. eexists. reflexivity.
  - destruct (is_RequestException e0) eqn:Hcls; cbn; intros H;
      injection H as <-.
    + left. split; [reflexivity|]. eexists. reflexivity.
    + right. right. right. split; [reflexivity | exact Hcls].
Qed.

Lemma fetch_polls_exception_kinds_witness :
  (exn_cls (Exn ValueError "Exceeds the limit") = RequestException
   /\ exists m, exn_str (Exn ValueError "Exceeds the limit")
                = "Request failed: " ++ m)
  \/ (Exn ValueError "Exceeds the limit"
      = Exn ValueError
          "Expected a list of polls, but received a different data type"
      /\ exists r v,
           always_answers
             (mkResponse 200 "OK" "" (IntTooLong "Exceeds the limit"))
             (List.length (sent world0))
             (polls_request 0 10 "http://localhost:8000")
           = Answered r
           /\ status_code r = 200 /\ body r = Json v
           /\ forall polls, v <> VList polls)
  \/ (exists r err,
        always_answers
          (mkResponse 200 "OK" "" (IntTooLong "Exceeds the limit"))
          (List.length (sent world0))
          (polls_request 0 10 "http://localhost:8000")
        = Answered r
        /\ status_code r = 200
        /\ ((body r = IntTooLong err
             /\ Exn ValueError "Exceeds the limit" = Exn ValueError err)
            \/ (body r = TooDeep err
                /\ Exn ValueError "Exceeds the limit"
                   = Exn RecursionError err)))
  \/ (always_answers
        (mkResponse 200 "OK" "" (IntTooLong "Exceeds the limit"))
        (List.length (sent world0))
        (polls_request 0 10 "http://localhost:8000")
      = Failed (Exn ValueError "Exceeds the limit")
      /\ is_RequestException (Exn ValueError "Exceeds the limit") = false).
Proof.
  apply (fetch_polls_exception_kinds
           (always_answers
              (mkResponse 200 "OK" "" (IntTooLong "Exceeds the limit")))
           0 10 "http://localhost:8000" world0).
  reflexivity.
Defined.

(** ** [fetch_polls_with_error_handling] *)

(** When the transport fails only with a [RequestException] or a
    [ValueError], and decoding a 200 body does not run out of stack,
    whatever [fetch_polls] raises is caught by
    [except (RequestException, ValueError)]. *)
Lemma fetch_polls_raised_is_caught net skip limit base_url w e :
  (forall e0, net (List.length (sent w)) (polls_request skip limit base_url)
              = Failed e0 ->
              is_RequestException_or_ValueError e0 = true) ->
  (forall r err, net (List.length (sent w))
                     (polls_request skip limit base_url) = Answered r ->
                 status_code r = 200 -> body r <> TooDeep err) ->
  fst (fetch_polls net skip limit base_url w) = Raised e ->
  is_RequestException_or_ValueError e = true.
Proof.
  unfold fetch_polls, try_except, bind, requests_send.
  destruct (net _ _) as [r | e0]; cbn [fst snd]; intros Htransport Hdeep.
  - destruct (Z.eqb_spec (status_code r) 200) as [Hst | Hst].
    + unfold response_json.
      destruct (body r) as [v | err | err | err] eqn:Hbody; cbn.
      * destruct v; cbn; intros H; try discriminate;
          injection H as <-; reflexivity.
      * intros H. injection H as <-. reflexivity.
      * intros H. injection H as <-. reflexivity.
      * exfalso. exact (Hdeep r err eq_refl Hst Hbody).
    + unfold raise_for_status.
      destruct (http_error_msg r); cbn; intros H;
        [injection H as <-; reflexivity | discriminate].
  - destruct (is_RequestException e0) eqn:Hcls; cbn; intros H;
      injection H as <-; [reflexivity|].
    apply Htransport. reflexivity.
Qed.

(** X5: when the transport answers, or fails with a [RequestException] or
    a [ValueError], and decoding a 200 body does not raise
    [RecursionError], [fetch_polls_with_error_handling] raises nothing.
    It issues one request; it returns what [fetch_polls] returns, printing
    nothing, and when [fetch_polls] raises [e] it returns [None] after
    printing the single line "Failed to fetch polls: <e>". *)
Theorem fetch_polls_with_error_handling_never_raises
        net skip limit base_url w :
  (forall e, net (List.length (sent w)) (polls_request skip limit base_url)
             = Failed e ->
             is_RequestException_or_ValueError e = true) ->
  (forall r err, net (List.length (sent w))
                     (polls_request skip limit base_url) = Answered r ->
                 status_code r = 200 -> body r <> TooDeep err) ->
  exists res w',
    fetch_polls_with_error_handling net skip limit base_url w
    = (Returned res, w')
    /\ sent w' = (sent w ++ [polls_request skip limit base_url])%list
    /\ match fst (fetch_polls net skip limit base_url w) with
       | Returned v => res = v /\ stdout w' = stdout w
       | Raised e =>
           res = None
           /\ stdout w'
              = (stdout w ++ [("Failed to fetch polls: " ++ exn_str e)%string])%list
       end.
Proof.
  intros Htransport Hdeep.
  pose proof (fetch_polls_world net skip limit base_url w) as Hw.
  pose proof (fetch_polls_raised_is_caught net skip limit base_url w)
    as Hcaught.
  unfold fetch_polls_with_error_handling, try_except.
  destruct (fetch_polls net skip limit base_url w) as [[v | e] w1];
    cbn [fst snd] in *; subst w1.
  - eexists _, _. repeat split.
  - rewrite (Hcaught e Htransport Hdeep eq_refl). cbn.
    eexists _, _. repeat split.
Qed.

Lemma fetch_polls_with_error_handling_never_raises_witness :
  exists res w',
    fetch_polls_with_error_handling
      (failing_after 0 [] (Exn Timeout "timed out"))
      0 10 "http://localhost:8000" world0
    = (Returned res, w')
    /\ sent w' = (sent world0 ++ [polls_request 0 10 "http://localhost:8000"])%list
    /\ res = None
    /\ stdout w'
       = (stdout world0
          ++ ["Failed to fetch polls: Request failed: timed out"])%list.
Proof.
  apply (fetch_polls_with_error_handling_never_raises
           (failing_after 0 [] (Exn Timeout "timed out"))
           0 10 "http://localhost:8000" world0).
  - intros e H. cbn in H. injection H as <-. reflexivity.
  - intros r err H. discriminate H.
Defined.

(** ** What the other raising wrappers raise *)

(** The outcome of [register_user] on a 400 answer. *)
Lemma register_user_400_outcome py_repr net username password base_url w r :
  net (List.length (sent w)) (register_request username password base_url)
  = Answered r ->
  status_code r = 400 ->
  match body r with
  | NotJson _ =>
      fst (register_user py_repr net username password base_url w)
      = Raised (Exn ValueError
                  "Registration failed: Username already registered")
  | IntTooLong err =>
      fst (register_user py_repr net username password base_url w)
      = Raised (Exn ValueError err)
  | TooDeep err =>
      fst (register_user py_repr net username password base_url w)
      = Raised (Exn RecursionError err)
  | Json v =>
      if detail_lookup_fails v then
        exists msg,
          fst (register_user py_repr net username password base_url w)
          = Raised (Exn TypeError msg)
      else
        fst (register_user py_repr net username password base_url w)
        = Raised (Exn ValueError
            ("Registration failed: "
             ++ match v with
                | VDict d =>
                    match dict_get "detail" d with
                    | Some detail => py_str py_repr detail
                    | None => "Username already registered"
                    end
                | _ => "Username already registered"
                end))
  end.
Proof.
  intros Hnet Hst. unfold register_request in Hnet.
  unfold register_user, try_except, bind, requests_send.
  rewrite Hnet. cbn [fst snd]. rewrite Hst.
  change (400 =? 200) with false. change (400 =? 400) with true.
  cbv iota. unfold response_json.
  destruct (body r) as [v | err | err | err];
    [| reflexivity | reflexivity | reflexivity].
  destruct v as [| b | n | s | l | d];
    cbv beta iota zeta
        delta [ret raise fst snd py_contains py_getitem detail_lookup_fails].
  - eexists. reflexivity.
  - eexists. reflexivity.
  - eexists. reflexivity.
  - destruct (str_contains "detail" s); [eexists|]; reflexivity.
  - destruct (existsb _ l); [eexists|]; reflexivity.
  - destruct (dict_get "detail" d); reflexivity.
Qed.

(** Every outcome of [register_user] once the network has answered. *)
Lemma register_user_answered py_repr net username password base_url w r :
  net (List.length (sent w)) (register_request username password base_url)
  = Answered r ->
  (status_code r = 200
   /\ exists v, body r = Json v
        /\ fst (register_user py_repr net username password base_url w)
           = Returned v)
  \/ (status_code r <> 200 /\ status_code r <> 400
      /\ (status_code r < 400 \/ 600 <= status_code r)
      /\ fst (register_user py_repr net username password base_url w)
         = Returned VNone)
  \/ (status_code r <> 400
      /\ (status_code r = 200 -> exists err, body r = NotJson err)
      /\ exists m,
           fst (register_user py_repr net username password base_url w)
           = Raised (Exn RequestException ("Request failed: " ++ m)))
  \/ (status_code r = 400
      /\ (forall v, body r = Json v -> detail_lookup_fails v = false)
      /\ (forall err, body r <> IntTooLong err /\ body r <> TooDeep err)
      /\ exists m,
           fst (register_user py_repr net username password base_url w)
           = Raised (Exn ValueError ("Registration failed: " ++ m)))
  \/ (status_code r = 400
      /\ (exists v, body r = Json v /\ detail_lookup_fails v = true)
      /\ exists msg,
           fst (register_user py_repr net username password base_url w)
           = Raised (Exn TypeError msg))
  \/ ((status_code r = 200 \/ status_code r = 400)
      /\ exists err,
           body r = IntTooLong err
           /\ fst (register_user py_repr net username password base_url w)
              = Raised (Exn ValueError err))
  \/ ((status_code r = 200 \/ status_code r = 400)
      /\ exists err,
           body r = TooDeep err
           /\ fst (register_user py_repr net username password base_url w)
              = Raised (Exn RecursionError err)).
Proof.
  intros Hnet.
  destruct (Z.eq_dec (status_code r) 400) as [H400 | H400].
  - pose proof (register_user_400_outcome py_repr net username password
                  base_url w r Hnet H400) as Hout.
    destruct (body r) as [v | err | err | err] eqn:Hbody.
    + destruct (detail_lookup_fails v) eqn:Hfail.
      * do 4 right. left. split; [exact H400|]. split; [|exact Hout].
        exists v. split; [reflexivity | exact Hfail].
      * do 3 right. left. split; [exact H400|]. split.
        -- intros v' Hv'. injection Hv' as <-. exact Hfail.
        -- split; [intros err; split; discriminate|].
           eexists. exact Hout.
    + do 3 right. left. split; [exact H400|]. split; [discriminate|].
      split; [intros err'; split; discriminate|].
      eexists. exact Hout.
    + do 5 right. left. split; [right; exact H400|].
      exists err. split; [reflexivity | exact Hout].
    + do 6 right. split; [right; exact H400|].
      exists err. split; [reflexivity | exact Hout].
  - unfold register_request in Hnet.
    unfold register_user, try_except, bind, requests_send.
    rewrite Hnet. cbn [fst snd].
    replace (status_code r =? 400) with false
      by (symmetry; apply Z.eqb_neq; exact H400).
    destruct (Z.eqb_spec (status_code r) 200) as [H200 | H200].
    + unfold response_json.
      destruct (body r) as [v | err | err | err] eqn:Hbody.
      * left. split; [exact H200|]. exists v. split; reflexivity.
      * right. right. left. split; [exact H400|].
        split; [intros _; exists err; reflexivity|].
        eexists. reflexivity.
      * do 5 right. left. split; [left; exact H200|].
        exists err. split; reflexivity.
      * do 6 right. split; [left; exact H200|].
        exists err. split; reflexivity.
    + unfold raise_for_status.
      destruct (http_error_msg r) eqn:Hmsg.
      * right. right. left. split; [exact H400|].
        split; [intros H; contradiction|].
        eexists. reflexivity.
      * right. left. repeat split; try assumption.
        apply http_error_msg_None_inv. exact Hmsg.
Qed.

(** Each raising wrapper issues exactly one request and prints nothing. *)
Lemma register_user_world py_repr net username password base_url w :
  snd (register_user py_repr net username password base_url w)
  = mkWorld (sent w ++ [register_request username password base_url])%list
            (stdout w).
Proof.
  unfold register_user, register_request, try_except, bind, requests_send.
  destruct (net _ _) as [r | e]; cbn [fst snd].
  - destruct (status_code r =? 200).
    + unfold response_json. destruct (body r); reflexivity.
    + destruct (status_code r =? 400).
      * unfold response_json.
        destruct (body r) as [v | err | err | err];
          [| reflexivity | reflexivity | reflexivity].
        destruct v as [| b | n | s | l | d];
          cbv beta iota zeta delta [ret raise fst snd py_contains py_getitem];
          try reflexivity.
        -- destruct (str_contains "detail" s); reflexivity.
        -- destruct (existsb _ l); reflexivity.
        -- destruct (dict_get "detail" d); reflexivity.
      * unfold raise_for_status. destruct (http_error_msg r); reflexivity.
  - destruct (is_RequestException e); reflexivity.
Qed.

Lemma cast_vote_world net poll_id option_id token base_url w :
  snd (cast_vote net poll_id option_id token base_url w)
  = mkWorld (sent w ++ [vote_request poll_id option_id token base_url])%list
            (stdout w).
Proof.
  unfold cast_vote, vote_request, try_except, bind, requests_send.
  destruct (net _ _) as [r | e]; cbn [fst snd].
  - destruct (status_code r =? 200).
    + unfold response_json. destruct (body r); reflexivity.
    + destruct (status_code r =? 401); [reflexivity|].
      destruct (status_code r =? 404); [reflexivity|].
      unfold raise_for_status. destruct (http_error_msg r); reflexivity.
  - destruct (is_RequestException e); reflexivity.
Qed.

Lemma get_poll_results_world net poll_id base_url w :
  snd (get_poll_results net poll_id base_url w)
  = mkWorld (sent w ++ [results_request poll_id base_url])%list (stdout w).
Proof.
  unfold get_poll_results, results_request, try_except, bind, requests_send.
  destruct (net _ _) as [r | e]; cbn [fst snd].
  - destruct (status_code r =? 200).
    + unfold response_json. destruct (body r); reflexivity.
    + destruct (status_code r =? 404); [reflexivity|].
      unfold raise_for_status. destruct (http_error_msg r); reflexivity.
  - destruct (is_RequestException e); reflexivity.
Qed.

(** X6: for a poll id that Python can write in decimal (fewer than 4301
    digits, [printable_int]; the f-string that builds the URL raises
    [ValueError] on a longer one, before the [try] and before any call),
    each of [register_user], [cast_vote] and [get_poll_results] calls the
    HTTP library exactly once, whatever the network does and whatever the
    outcome (there is no retry), and prints nothing.  The call is the JSON
    POST of the credentials to [/register], the JSON POST of the option to
    [/polls/<poll_id>/vote] with the bearer token, and the GET of
    [/polls/<poll_id>/results]. *)
Theorem raising_wrappers_issue_one_request
        py_repr net username password poll_id option_id token base_url w :
  printable_int poll_id ->
  snd (register_user py_repr net username password base_url w)
  = mkWorld (sent w ++ [register_request username password base_url])%list
            (stdout w)
  /\ snd (cast_vote net poll_id option_id token base_url w)
     = mkWorld (sent w ++ [vote_request poll_id option_id token base_url])%list
               (stdout w)
  /\ snd (get_poll_results net poll_id base_url w)
     = mkWorld (sent w ++ [results_request poll_id base_url])%list (stdout w).
Proof.
  intros _.
  split; [apply register_user_world|].
  split; [apply cast_vote_world | apply get_poll_results_world].
Qed.

Lemma raising_wrappers_issue_one_request_witness :
  snd (register_user (fun _ => "")
         (failing_after 0 [] (Exn Timeout "timed out"))
         "alice" "secret" "http://localhost:8000" world0)
  = mkWorld
      (sent world0
       ++ [register_request "alice" "secret" "http://localhost:8000"])%list
      (stdout world0)
  /\ snd (cast_vote (failing_after 0 [] (Exn Timeout "timed out"))
            7 3 "token" "http://localhost:8000" world0)
     = mkWorld
         (sent world0
          ++ [vote_request 7 3 "token" "http://localhost:8000"])%list
         (stdout world0)
  /\ snd (get_poll_results (failing_after 0 [] (Exn Timeout "timed out"))
            7 "http://localhost:8000" world0)
     = mkWorld
         (sent world0 ++ [results_request 7 "http://localhost:8000"])%list
         (stdout world0).
Proof.
  apply (raising_wrappers_issue_one_request (fun _ => "")
           (failing_after 0 [] (Exn Timeout "timed out"))
           "alice" "secret" 7 3 "token" "http://localhost:8000" world0).
  vm_compute. reflexivity.
Defined.

(** X7: once the network has answered, [register_user] raises [TypeError]
    exactly when the status is 400 and the body decodes to a value on which
    the lookup of ["detail"] is ill-typed: [null], a boolean, a number, or
    a list or string that contains ["detail"].  And it never raises
    [KeyError]: the subscript [error_data["detail"]] is reached only after
    the test ["detail" in error_data] has succeeded. *)
Theorem register_user_raises_TypeError_iff
        py_repr net username password base_url w r :
  net (List.length (sent w)) (register_request username password base_url)
  = Answered r ->
  ((exists msg,
      fst (register_user py_repr net username password base_url w)
      = Raised (Exn TypeError msg))
   <-> (status_code r = 400
        /\ exists v, body r = Json v /\ detail_lookup_fails v = true))
  /\ (forall e,
        fst (register_user py_repr net username password base_url w)
        = Raised e ->
        exn_cls e <> KeyError).
Proof.
  intros Hnet.
  destruct (register_user_answered py_repr net username password base_url
              w r Hnet)
    as [(Hst & v & _ & H) | [(_ & Hst & _ & H) | [(Hst & _ & m & H)
       | [(_ & Hall & _ & m & H) | [(H400 & Hv & msg & H)
       | [(Hst & err & Hb & H) | (Hst & err & Hb & H)]]]]]];
    rewrite H;
    (split;
     [split; try (intros (msg' & Hmsg); discriminate Hmsg)
     | intros e He; try discriminate He;
       injection He as <-; cbn; discriminate]).
  - intros (H400 & v' & Hb & Hf). lia.
  - intros (H400 & v' & Hb & Hf). lia.
  - intros (H400 & v' & Hb & Hf). lia.
  - intros (H400 & v' & Hb & Hf). rewrite (Hall v' Hb) in Hf. discriminate.
  - intros _. split; assumption.
  - intros _. exists msg. reflexivity.
  - intros (H400 & v' & Hb' & Hf). rewrite Hb in Hb'. discriminate.
  - intros (H400 & v' & Hb' & Hf). rewrite Hb in Hb'. discriminate.
Qed.

Lemma register_user_raises_TypeError_iff_witness :
  ((exists msg,
      fst (register_user (fun _ => "")
             (always_answers
                (mkResponse 400 "Bad Request" ""
                   (Json (VList [VStr "detail"]))))
             "alice" "secret" "http://localhost:8000" world0)
      = Raised (Exn TypeError msg))
   <-> (status_code (mkResponse 400 "Bad Request" ""
                       (Json (VList [VStr "detail"]))) = 400
        /\ exists v, body (mkResponse 400 "Bad Request" ""
                             (Json (VList [VStr "detail"]))) = Json v
                     /\ detail_lookup_fails v = true))
  /\ (forall e,
        fst (register_user (fun _ => "")
               (always_answers
                  (mkResponse 400 "Bad Request" ""
                     (Json (VList [VStr "detail"]))))
               "alice" "secret" "http://localhost:8000" world0)
        = Raised e ->
        exn_cls e <> KeyError).
Proof.
  apply (register_user_raises_TypeError_iff (fun _ => "")
           (always_answers
              (mkResponse 400 "Bad Request" "" (Json (VList [VStr "detail"]))))
           "alice" "secret" "http://localhost:8000" world0
           (mkResponse 400 "Bad Request" "" (Json (VList [VStr "detail"])))).
  reflexivity.
Defined.

(** X8: for a poll id that Python can write in decimal, an exception
    leaving [cast_vote] is one of four kinds: a plain [RequestException]
    whose text starts with "Request failed: "; the [ValueError] of a 401
    or of a 404 answer (whatever the body of that answer); an exception
    of the decoder of a 200 body that is not a [RequestException], passed
    through unchanged (the [ValueError] of an integer literal beyond the
    digit limit, the [RecursionError] of a body nested too deep); or an
    exception of the transport that is not a [RequestException], passed
    through unchanged. *)
Theorem cast_vote_exception_kinds net poll_id option_id token base_url w e :
  printable_int poll_id ->
  fst (cast_vote net poll_id option_id token base_url w) = Raised e ->
  (exn_cls e = RequestException
   /\ exists m, exn_str e = "Request failed: " ++ m)
  \/ (exists r,
        net (List.length (sent w))
            (vote_request poll_id option_id token base_url) = Answered r
        /\ ((status_code r = 401
             /\ e = Exn ValueError "Unauthorized: Invalid or missing JWT token")
            \/ (status_code r = 404
                /\ e = Exn ValueError "Poll or option not found")))
  \/ (exists r err,
        net (List.length (sent w))
            (vote_request poll_id option_id token base_url) = Answered r
        /\ status_code r = 200
        /\ ((body r = IntTooLong err /\ e = Exn ValueError err)
            \/ (body r = TooDeep err /\ e = Exn RecursionError err)))
  \/ (net (List.length (sent w))
          (vote_request poll_id option_id token base_url) = Failed e
      /\ is_RequestException e = false).
Proof.
  intros _.
  unfold cast_vote, vote_request, try_except, bind, requests_send.
  destruct (net _ _) as [r | e0]; cbn [fst snd].
  - destruct (Z.eqb_spec (status_code r) 200) as [H200 | H200].
    + unfold response_json.
      destruct (body r) as [v | err | err | err] eqn:Hbody; cbn; intros H;
        [discriminate | | |]; injection H as <-.
      * left. split; [reflexivity|]. eexists. reflexivity.
      * right. right. left. exists r, err. split; [reflexivity|].
        split; [exact H200|]. left. split; [exact Hbody | reflexivity].
      * right. right. left. exists r, err. split; [reflexivity|].
        split; [exact H200|]. right. split; [exact Hbody | reflexivity].
    + destruct (Z.eqb_spec (status_code r) 401) as [H401 | H401].
      { cbn. intros H. injection H as <-. right. left. exists r.
        split; [reflexivity|]. left. split; [exact H401 | reflexivity]. }
      destruct (Z.eqb_spec (status_code r) 404) as [H404 | H404].
      { cbn. intros H. injection H as <-. right. left. exists r.
        split; [reflexivity|]. right. split; [exact H404 | reflexivity]. }
      unfold raise_for_status.
      destruct (http_error_msg r); cbn; intros H; [|discriminate].
      injection H as <-. left. split; [reflexivity|]. eexists. reflexivity.
  - destruct (is_RequestException e0) eqn:Hcls; cbn; intros H;
      injection H as <-.
    + left. split; [reflexivity|]. eexists. reflexivity.
    + do 3 right. split; [reflexivity | exact Hcls].
Qed.

Lemma cast_vote_exception_kinds_witness :
  (exn_cls (Exn RecursionError "maximum recursion depth exceeded")
   = RequestException
   /\ exists m,
        exn_str (Exn RecursionError "maximum recursion depth exceeded")
        = "Request failed: " ++ m)
  \/ (exists r,
        always_answers
          (mkResponse 200 "OK" "" (TooDeep "maximum recursion depth exceeded"))
          (List.length (sent world0))
          (vote_request 7 3 "token" "http://localhost:8000") = Answered r
        /\ ((status_code r = 401
             /\ Exn RecursionError "maximum recursion depth exceeded"
                = Exn ValueError "Unauthorized: Invalid or missing JWT token")
            \/ (status_code r = 404
                /\ Exn RecursionError "maximum recursion depth exceeded"
                   = Exn ValueError "Poll or option not found")))
  \/ (exists r err,
        always_answers
          (mkResponse 200 "OK" "" (TooDeep "maximum recursion depth exceeded"))
          (List.length (sent world0))
          (vote_request 7 3 "token" "http://localhost:8000") = Answered r
        /\ status_code r = 200
        /\ ((body r = IntTooLong err
             /\ Exn RecursionError "maximum recursion depth exceeded"
                = Exn ValueError err)
            \/ (body r = TooDeep err
                /\ Exn RecursionError "maximum recursion depth exceeded"
                   = Exn RecursionError err)))
  \/ (always_answers
        (mkResponse 200 "OK" "" (TooDeep "maximum recursion depth exceeded"))
        (List.length (sent world0))
        (vote_request 7 3 "token" "http://localhost:8000")
      = Failed (Exn RecursionError "maximum recursion depth exceeded")
      /\ is_RequestException
           (Exn RecursionError "maximum recursion depth exceeded") = false).
Proof.
  apply (cast_vote_exception_kinds
           (always_answers
              (mkResponse 200 "OK" ""
                 (TooDeep "maximum recursion depth exceeded")))
           7 3 "token" "http://localhost:8000" world0).
  - vm_compute. reflexivity.
  - reflexivity.
Defined.

(** X9: the same for [get_poll_results], whose only [ValueError] of its
    own is the one of a 404 answer: for a poll id that Python can write in
    decimal, an exception leaving it is the wrapped [RequestException],
    that [ValueError], an exception of the decoder of a 200 body that is
    not a [RequestException] ([ValueError] of an integer literal beyond
    the digit limit, [RecursionError]), or an exception of the transport
    that is not a [RequestException]. *)
Theorem get_poll_results_exception_kinds net poll_id base_url w e :
  printable_int poll_id ->
  fst (get_poll_results net poll_id base_url w) = Raised e ->
  (exn_cls e = RequestException
   /\ exists m, exn_str e = "Request failed: " ++ m)
  \/ (exists r,
        net (List.length (sent w)) (results_request poll_id base_url)
        = Answered r
        /\ status_code r = 404
        /\ e = Exn ValueError "Poll not found")
  \/ (exists r err,
        net (List.length (sent w)) (results_request poll_id base_url)
        = Answered r
        /\ status_code r = 200
        /\ ((body r = IntTooLong err /\ e = Exn ValueError err)
            \/ (body r = TooDeep err /\ e = Exn RecursionError err)))
  \/ (net (List.length (sent w)) (results_request poll_id base_url) = Failed e
      /\ is_RequestException e = false).
Proof.
  intros _.
  unfold get_poll_results, results_request, try_except, bind, requests_send.
  destruct (net _ _) as [r | e0]; cbn [fst snd].
  - destruct (Z.eqb_spec (status_code r) 200) as [H200 | H200].
    + unfold response_json.
      destruct (body r) as [v | err | err | err] eqn:Hbody; cbn; intros H;
        [discriminate | | |]; injection H as <-.
      * left. split; [reflexivity|]. eexists. reflexivity.
      * right. right. left. exists r, err. split; [reflexivity|].
        split; [exact H200|]. left. split; [exact Hbody | reflexivity].
      * right. right. left. exists r, err. split; [reflexivity|].
        split; [exact H200|]. right. split; [exact Hbody | reflexivity].
    + destruct (Z.eqb_spec (status_code r) 404) as [H404 | H404].
      { cbn. intros H. injection H as <-. right. left. exists r.
        repeat split. exact H404. }
      unfold raise_for_status.
      destruct (http_error_msg r); cbn; intros H; [|discriminate].
      injection H as <-. left. split; [reflexivity|]. eexists. reflexivity.
  - destruct (is_RequestException e0) eqn:Hcls; cbn; intros H;
      injection H as <-.
    + left. split; [reflexivity|]. eexists. reflexivity.
    + do 3 right. split; [reflexivity | exact Hcls].
Qed.

Lemma get_poll_results_exception_kinds_witness :
  (exn_cls (Exn ValueError "Exceeds the limit") = RequestException
   /\ exists m,
        exn_str (Exn ValueError "Exceeds the limit") = "Request failed: " ++ m)
  \/ (exists r,
        always_answers (mkResponse 200 "OK" "" (IntTooLong "Exceeds the limit"))
          (List.length (sent world0))
          (results_request 7 "http://localhost:8000")
        = Answered r
        /\ status_code r = 404
        /\ Exn ValueError "Exceeds the limit" = Exn ValueError "Poll not found")
  \/ (exists r err,
        always_answers (mkResponse 200 "OK" "" (IntTooLong "Exceeds the limit"))
          (List.length (sent world0))
          (results_request 7 "http://localhost:8000")
        = Answered r
        /\ status_code r = 200
        /\ ((body r = IntTooLong err
             /\ Exn ValueError "Exceeds the limit" = Exn ValueError err)
            \/ (body r = TooDeep err
                /\ Exn ValueError "Exceeds the limit"
                   = Exn RecursionError err)))
  \/ (always_answers (mkResponse 200 "OK" "" (IntTooLong "Exceeds the limit"))
        (List.length (sent world0))
        (results_request 7 "http://localhost:8000")
      = Failed (Exn ValueError "Exceeds the limit")
      /\ is_RequestException (Exn ValueError "Exceeds the limit") = false).
Proof.
  apply (get_poll_results_exception_kinds
           (always_answers
              (mkResponse 200 "OK" "" (IntTooLong "Exceeds the limit")))
           7 "http://localhost:8000" world0).
  - vm_compute. reflexivity.
  - reflexivity.
Defined.

(** ** The wrappers "with error handling" *)

(** The shape shared by the four wrappers: when every exception of the
    wrapped call is a [RequestException] or a [ValueError], the wrapper
    returns; it hands on the value of the call, or the sentinel after one
    printed line. *)
Lemma with_error_handling_returns {A} (call : Py A) (prefix : string)
      (sentinel : A) w :
  (forall e, fst (call w) = Raised e ->
             is_RequestException_or_ValueError e = true) ->
  exists res w',
    try_except call is_RequestException_or_ValueError
      (fun e => print (prefix ++ exn_str e) ;;; ret sentinel) w
    = (Returned res, w')
    /\ sent w' = sent (snd (call w))
    /\ match fst (call w) with
       | Returned v => res = v /\ stdout w' = stdout (snd (call w))
       | Raised e =>
           res = sentinel
           /\ stdout w'
              = (stdout (snd (call w)) ++ [(prefix ++ exn_str e)%string])%list
       end.
Proof.
  intros Hcaught. unfold try_except.
  destruct (call w) as [[v | e] w1]; cbn [fst snd] in *.
  - eexists _, _. repeat split.
  - rewrite (Hcaught e eq_refl). cbn. eexists _, _. repeat split.
Qed.

(** Under the usual behaviour of the transport (it answers, or fails with a
    [RequestException] or a [ValueError]), and when decoding a 200 body
    does not run out of stack, whatever the raising wrappers raise is
    caught by [except (RequestException, ValueError)]. *)
Lemma cast_vote_raised_is_caught net poll_id option_id token base_url w e :
  (forall e0, net (List.length (sent w))
                  (vote_request poll_id option_id token base_url) = Failed e0 ->
              is_RequestException_or_ValueError e0 = true) ->
  (forall r err, net (List.length (sent w))
                     (vote_request poll_id option_id token base_url)
                 = Answered r ->
                 status_code r = 200 -> body r <> TooDeep err) ->
  fst (cast_vote net poll_id option_id token base_url w) = Raised e ->
  is_RequestException_or_ValueError e = true.
Proof.
  unfold cast_vote, vote_request, try_except, bind, requests_send.
  destruct (net _ _) as [r | e0]; cbn [fst snd]; intros Htransport Hdeep.
  - destruct (Z.eqb_spec (status_code r) 200) as [H200 | H200].
    + unfold response_json.
      destruct (body r) as [v | err | err | err] eqn:Hbody; cbn; intros H.
      * discriminate.
      * injection H as <-; reflexivity.
      * injection H as <-; reflexivity.
      * exfalso. exact (Hdeep r err eq_refl H200 Hbody).
    + destruct (status_code r =? 401);
        [cbn; intros H; injection H as <-; reflexivity|].
      destruct (status_code r =? 404);
        [cbn; intros H; injection H as <-; reflexivity|].
      unfold raise_for_status.
      destruct (http_error_msg r); cbn; intros H;
        [injection H as <-; reflexivity | discriminate].
  - destruct (is_RequestException e0) eqn:Hcls; cbn; intros H;
      injection H as <-; [reflexivity|].
    apply Htransport. reflexivity.
Qed.

Lemma get_poll_results_raised_is_caught net poll_id base_url w e :
  (forall e0, net (List.length (sent w)) (results_request poll_id base_url)
              = Failed e0 ->
              is_RequestException_or_ValueError e0 = true) ->
  (forall r err, net (List.length (sent w)) (results_request poll_id base_url)
                 = Answered r ->
                 status_code r = 200 -> body r <> TooDeep err) ->
  fst (get_poll_results net poll_id base_url w) = Raised e ->
  is_RequestException_or_ValueError e = true.
Proof.
  unfold get_poll_results, results_request, try_except, bind, requests_send.
  destruct (net _ _) as [r | e0]; cbn [fst snd]; intros Htransport Hdeep.
  - destruct (Z.eqb_spec (status_code r) 200) as [H200 | H200].
    + unfold response_json.
      destruct (body r) as [v | err | err | err] eqn:Hbody; cbn; intros H.
      * discriminate.
      * injection H as <-; reflexivity.
      * injection H as <-; reflexivity.
      * exfalso. exact (Hdeep r err eq_refl H200 Hbody).
    + destruct (status_code r =? 404);
        [cbn; intros H; injection H as <-; reflexivity|].
      unfold raise_for_status.
      destruct (http_error_msg r); cbn; intros H;
        [injection H as <-; reflexivity | discriminate].
  - destruct (is_RequestException e0) eqn:Hcls; cbn; intros H;
      injection H as <-; [reflexivity|].
    apply Htransport. reflexivity.
Qed.

(** X10: for a poll id that Python can write in decimal, when the
    transport answers, or fails with a [RequestException] or a
    [ValueError], and decoding a 200 body does not raise [RecursionError],
    [cast_vote_with_error_handling] raises nothing: after its one call it
    returns what [cast_vote] returns, printing nothing, or, when
    [cast_vote] raises [e], [None] after printing the single line
    "Vote failed: <e>". *)
Theorem cast_vote_with_error_handling_never_raises
        net poll_id option_id token base_url w :
  printable_int poll_id ->
  (forall e, net (List.length (sent w))
                 (vote_request poll_id option_id token base_url) = Failed e ->
             is_RequestException_or_ValueError e = true) ->
  (forall r err, net (List.length (sent w))
                     (vote_request poll_id option_id token base_url)
                 = Answered r ->
                 status_code r = 200 -> body r <> TooDeep err) ->
  exists res w',
    cast_vote_with_error_handling net poll_id option_id token base_url w
    = (Returned res, w')
    /\ sent w'
       = (sent w ++ [vote_request poll_id option_id token base_url])%list
    /\ match fst (cast_vote net poll_id option_id token base_url w) with
       | Returned v => res = v /\ stdout w' = stdout w
       | Raised e =>
           res = VNone
           /\ stdout w'
              = (stdout w ++ [("Vote failed: " ++ exn_str e)%string])%list
       end.
Proof.
  intros _ Htransport Hdeep.
  destruct (with_error_handling_returns
              (cast_vote net poll_id option_id token base_url)
              "Vote failed: " VNone w) as (res & w' & Heq & Hsent & Hout).
  { intros e He.
    exact (cast_vote_raised_is_caught _ _ _ _ _ _ _ Htransport Hdeep He). }
  rewrite cast_vote_world in Hsent, Hout. cbn [sent stdout] in Hsent, Hout.
  exists res, w'. split; [exact Heq|]. split; [exact Hsent | exact Hout].
Qed.

Lemma cast_vote_with_error_handling_never_raises_witness :
  exists res w',
    cast_vote_with_error_handling
      (always_answers (mkResponse 401 "Unauthorized" "" (NotJson "")))
      7 3 "expired" "http://localhost:8000" world0
    = (Returned res, w')
    /\ sent w'
       = (sent world0
          ++ [vote_request 7 3 "expired" "http://localhost:8000"])%list
    /\ res = VNone
    /\ stdout w'
       = (stdout world0
          ++ ["Vote failed: Unauthorized: Invalid or missing JWT token"])%list.
Proof.
  apply (cast_vote_with_error_handling_never_raises
           (always_answers (mkResponse 401 "Unauthorized" "" (NotJson "")))
           7 3 "expired" "http://localhost:8000" world0).
  - vm_compute. reflexivity.
  - intros e H. discriminate H.
  - intros r err H. cbn in H. injection H as <-. cbn. discriminate.
Defined.

(** X11: likewise [get_poll_results_with_error_handling] raises nothing
    under the same conditions on the poll id, the transport and the
    decoder; on failure it returns [None] after printing
    "Failed to get poll results: <e>". *)
Theorem get_poll_results_with_error_handling_never_raises
        net poll_id base_url w :
  printable_int poll_id ->
  (forall e, net (List.length (sent w)) (results_request poll_id base_url)
             = Failed e ->
             is_RequestException_or_ValueError e = true) ->
  (forall r err, net (List.length (sent w)) (results_request poll_id base_url)
                 = Answered r ->
                 status_code r = 200 -> body r <> TooDeep err) ->
  exists res w',
    get_poll_results_with_error_handling net poll_id base_url w
    = (Returned res, w')
    /\ sent w' = (sent w ++ [results_request poll_id base_url])%list
    /\ match fst (get_poll_results net poll_id base_url w) with
       | Returned v => res = v /\ stdout w' = stdout w
       | Raised e =>
           res = VNone
           /\ stdout w'
              = (stdout w
                 ++ [("Failed to get poll results: " ++ exn_str e)%string])%list
       end.
Proof.
  intros _ Htransport Hdeep.
  destruct (with_error_handling_returns
              (get_poll_results net poll_id base_url)
              "Failed to get poll results: " VNone w)
    as (res & w' & Heq & Hsent & Hout).
  { intros e He.
    exact (get_poll_results_raised_is_caught _ _ _ _ _ Htransport Hdeep He). }
  rewrite get_poll_results_world in Hsent, Hout.
  cbn [sent stdout] in Hsent, Hout.
  exists res, w'. split; [exact Heq|]. split; [exact Hsent | exact Hout].
Qed.

Lemma get_poll_results_with_error_handling_never_raises_witness :
  exists res w',
    get_poll_results_with_error_handling
      (always_answers (mkResponse 404 "Not Found" "" (NotJson "")))
      7 "http://localhost:8000" world0
    = (Returned res, w')
    /\ sent w'
       = (sent world0 ++ [results_request 7 "http://localhost:8000"])%list
    /\ res = VNone
    /\ stdout w'
       = (stdout world0 ++ ["Failed to get poll results: Poll not found"])%list.
Proof.
  apply (get_poll_results_with_error_handling_never_raises
           (always_answers (mkResponse 404 "Not Found" "" (NotJson "")))
           7 "http://localhost:8000" world0).
  - vm_compute. reflexivity.
  - intros e H. discriminate H.
  - intros r err H. cbn in H. injection H as <-. cbn. discriminate.
Defined.

(** X12: on a 400 answer whose body is a JSON object or is not JSON,
    [register_user_with_error_handling] returns [None] and its one printed
    line carries the prefix twice: "Registration failed: Registration
    failed: <detail or default>", since the message of the [ValueError]
    already starts with it. *)
Theorem register_user_with_error_handling_prints_prefix_twice
        py_repr net username password base_url w r :
  net (List.length (sent w)) (register_request username password base_url)
  = Answered r ->
  status_code r = 400 ->
  (forall v, body r = Json v -> detail_lookup_fails v = false) ->
  (forall err, body r <> IntTooLong err /\ body r <> TooDeep err) ->
  register_user_with_error_handling py_repr net username password base_url w
  = (Returned VNone,
     mkWorld (sent w ++ [register_request username password base_url])%list
       (stdout w
        ++ [("Registration failed: Registration failed: "
             ++ match body r with
                | Json (VDict d) =>
                    match dict_get "detail" d with
                    | Some detail => py_str py_repr detail
                    | None => "Username already registered"
                    end
                | _ => "Username already registered"
                end)%string])%list).
Proof.
  intros Hnet H400 Hok Hdecodes.
  pose proof (register_user_400_outcome py_repr net username password
                base_url w r Hnet H400) as Hout.
  pose proof (register_user_world py_repr net username password base_url w)
    as Hw.
  unfold register_user_with_error_handling, try_except.
  destruct (register_user py_repr net username password base_url w)
    as [res w1].
  cbn [fst snd] in *. subst w1.
  destruct (body r) as [v | err | err | err].
  - rewrite (Hok v eq_refl) in Hout. subst res.
    destruct v; reflexivity.
  - subst res. reflexivity.
  - exfalso. exact (proj1 (Hdecodes err) eq_refl).
  - exfalso. exact (proj2 (Hdecodes err) eq_refl).
Qed.

Lemma register_user_with_error_handling_prints_prefix_twice_witness :
  register_user_with_error_handling (fun _ => "")
    (always_answers
       (mkResponse 400 "Bad Request" ""
          (Json (VDict [("detail", VStr "Username already registered")]))))
    "alice" "secret" "http://localhost:8000" world0
  = (Returned VNone,
     mkWorld [register_request "alice" "secret" "http://localhost:8000"]
       ["Registration failed: Registration failed: Username already registered"]).
Proof.
  apply (register_user_with_error_handling_prints_prefix_twice (fun _ => "")
           (always_answers
              (mkResponse 400 "Bad Request" ""
                 (Json (VDict [("detail", VStr "Username already registered")]))))
           "alice" "secret" "http://localhost:8000" world0
           (mkResponse 400 "Bad Request" ""
              (Json (VDict [("detail", VStr "Username already registered")])))).
  - reflexivity.
  - reflexivity.
  - intros v Hv. injection Hv as <-. reflexivity.
  - intros err. split; discriminate.
Defined.

(** X13: once the network has answered,
    [register_user_with_error_handling] raises exactly in two cases: when
    [register_user] raises [TypeError] (status 400 with a body that
    decodes to [null], a boolean, a number, or a list or string containing
    ["detail"]), and when decoding the body of a 200 or of a 400 answer
    raises [RecursionError].  In every other case it returns; the
    [ValueError] of an integer literal beyond the digit limit, in
    particular, is caught. *)
Theorem register_user_with_error_handling_raises_iff
        py_repr net username password base_url w r :
  net (List.length (sent w)) (register_request username password base_url)
  = Answered r ->
  (exists e,
     fst (register_user_with_error_handling py_repr net username password
            base_url w) = Raised e)
  <-> ((status_code r = 400
        /\ exists v, body r = Json v /\ detail_lookup_fails v = true)
       \/ ((status_code r = 200 \/ status_code r = 400)
           /\ exists err, body r = TooDeep err)).
Proof.
  intros Hnet.
  pose proof (register_user_answered py_repr net username password base_url
                w r Hnet) as Hcases.
  unfold register_user_with_error_handling, try_except.
  destruct (register_user py_repr net username password base_url w)
    as [res w1].
  cbn [fst] in Hcases.
  destruct Hcases
    as [(Hst & v & Hb & ->) | [(H200 & Hst & _ & ->) | [(Hst & H200 & m & ->)
       | [(_ & Hall & Hdec & m & ->) | [(H400 & Hv & msg & ->)
       | [(Hst & err & Hb & ->) | (Hst & err & Hb & ->)]]]]]];
    cbn; split;
    try (intros (e & He); discriminate He).
  - intros [(H400 & _) | (_ & err & Hb')]; [lia|].
    rewrite Hb in Hb'. discriminate.
  - intros [(H400 & _) | ([H | H] & _)]; lia.
  - intros [(H400 & _) | ([H | H] & err & Hb')]; [lia | | lia].
    destruct (H200 H) as (err' & Hb). rewrite Hb in Hb'. discriminate.
  - intros [(H400 & v' & Hb & Hf) | (_ & err & Hb')].
    + rewrite (Hall v' Hb) in Hf. discriminate.
    + exfalso. exact (proj2 (Hdec err) Hb').
  - intros _. left. split; assumption.
  - intros _. eexists. reflexivity.
  - intros [(H400 & v' & Hb' & _) | (_ & err' & Hb')];
      rewrite Hb in Hb'; discriminate.
  - intros _. right. split; [exact Hst|]. exists err. exact Hb.
  - intros _. eexists. reflexivity.
Qed.

Lemma register_user_with_error_handling_raises_iff_witness :
  (exists e,
     fst (register_user_with_error_handling (fun _ => "")
            (always_answers (mkResponse 400 "Bad Request" "" (Json (VInt 5))))
            "alice" "secret" "http://localhost:8000" world0) = Raised e)
  <-> ((status_code (mkResponse 400 "Bad Request" "" (Json (VInt 5))) = 400
        /\ exists v, body (mkResponse 400 "Bad Request" "" (Json (VInt 5)))
                     = Json v
                     /\ detail_lookup_fails v = true)
       \/ ((status_code (mkResponse 400 "Bad Request" "" (Json (VInt 5))) = 200
            \/ status_code (mkResponse 400 "Bad Request" "" (Json (VInt 5)))
               = 400)
           /\ exists err,
                body (mkResponse 400 "Bad Request" "" (Json (VInt 5)))
                = TooDeep err)).
Proof.
  apply (register_user_with_error_handling_raises_iff (fun _ => "")
           (always_answers (mkResponse 400 "Bad Request" "" (Json (VInt 5))))
           "alice" "secret" "http://localhost:8000" world0
           (mkResponse 400 "Bad Request" "" (Json (VInt 5)))).
  reflexivity.
Defined.
(** ** [print_polls_summary] *)

(** A loop whose body, on an acceptable item, only prints a known number
    of lines and, on any other item, raises: the loop gets through exactly
    the lists of acceptable items. *)
Lemma for_each_lines {A} (body : A -> Py unit) (ok : A -> bool)
      (lines_of : A -> nat) (bad : exn -> Prop) :
  (forall x w, ok x = true ->
     exists lines,
       body x w = (Returned tt, mkWorld (sent w) (stdout w ++ lines)%list)
       /\ List.length lines = lines_of x) ->
  (forall x w, ok x = false ->
     exists e w', body x w = (Raised e, w') /\ bad e) ->
  forall l w,
    if forallb ok l then
      exists lines,
        for_each l body w
        = (Returned tt, mkWorld (sent w) (stdout w ++ lines)%list)
        /\ List.length lines = list_sum (map lines_of l)
    else
      exists e w', for_each l body w = (Raised e, w') /\ bad e.
Proof.
  intros Hok Hbad. induction l as [|x l IH]; intros w.
  - cbn. exists []. rewrite app_nil_r. destruct w. split; reflexivity.
  - cbn [forallb for_each map list_sum fold_right]. unfold bind.
    destruct (ok x) eqn:Hx; cbn [andb].
    + destruct (Hok x w Hx) as (lines & -> & Hlen).
      specialize (IH (mkWorld (sent w) (stdout w ++ lines)%list)).
      destruct (forallb ok l).
      * destruct IH as (lines' & -> & Hlen').
        exists (lines ++ lines')%list. cbn [sent stdout].
        rewrite app_assoc, length_app, Hlen, Hlen'. split; reflexivity.
      * destruct IH as (e & w' & -> & He). exists e, w'. split; [reflexivity|exact He].
    + destruct (Hbad x w Hx) as (e & w' & -> & He).
      exists e, w'. split; [reflexivity | exact He].
Qed.

Lemma list_sum_ones {A} (l : list A) :
  list_sum (map (fun _ => 1%nat) l) = List.length l.
Proof. induction l as [|x l IH]; cbn in *; [reflexivity | f_equal; exact IH]. Qed.

Lemma print_summary_option_run py_repr opt w :
  if is_dict opt then
    exists lines,
      print_summary_option py_repr opt w
      = (Returned tt, mkWorld (sent w) (stdout w ++ lines)%list)
      /\ List.length lines = 1%nat
  else
    exists e w',
      print_summary_option py_repr opt w = (Raised e, w') /\ summary_error e.
Proof.
  unfold print_summary_option, py_get_default, bind, ret, raise, print.
  destruct opt; cbn [is_dict];
    try (eexists _, _; split; [reflexivity | left; reflexivity]).
  eexists. split; reflexivity.
Qed.

Lemma print_summary_option_ok py_repr opt w :
  is_dict opt = true ->
  exists lines,
    print_summary_option py_repr opt w
    = (Returned tt, mkWorld (sent w) (stdout w ++ lines)%list)
    /\ List.length lines = 1%nat.
Proof.
  intros H. pose proof (print_summary_option_run py_repr opt w) as Hrun.
  rewrite H in Hrun. exact Hrun.
Qed.

Lemma print_summary_option_bad py_repr opt w :
  is_dict opt = false ->
  exists e w',
    print_summary_option py_repr opt w = (Raised e, w') /\ summary_error e.
Proof.
  intros H. pose proof (print_summary_option_run py_repr opt w) as Hrun.
  rewrite H in Hrun. exact Hrun.
Qed.

Lemma print_summary_poll_run py_repr poll w :
  if poll_printable poll then
    exists lines,
      print_summary_poll py_repr poll w
      = (Returned tt, mkWorld (sent w) (stdout w ++ lines)%list)
      /\ List.length lines = (6 + option_lines poll)%nat
  else
    exists e w',
      print_summary_poll py_repr poll w = (Raised e, w') /\ summary_error e.
Proof.
  destruct poll as [| b | n | s | l | d]; cbn [poll_printable];
    try (eexists _, _; split; [reflexivity | left; reflexivity]).
  unfold print_summary_poll, option_lines.
  destruct (dict_get "options" d) as [options|] eqn:Hopt.
  - destruct options as [| b | n | s | l | d']; cbn [options_printable];
      try (eexists _, _; split;
           [unfold bind, py_get_default, ret, print; rewrite Hopt; reflexivity
           | right; reflexivity]).
    + (* a str *)
      destruct s as [|c s].
      * eexists. split;
          [unfold bind, py_get_default, ret, print; rewrite Hopt;
           cbn -[str_int py_str append str_repeat];
           rewrite <- !app_assoc; reflexivity
          | reflexivity].
      * eexists _, _. split;
          [unfold bind, py_get_default, ret, print; rewrite Hopt; reflexivity
          | left; reflexivity].
    + (* a list *)
      unfold bind, py_get_default, ret, print. rewrite Hopt.
      cbn -[str_int py_str append str_repeat for_each].
      match goal with
      | |- context [for_each l ?body ?W] =>
          pose proof (for_each_lines body is_dict (fun _ => 1%nat)
                        summary_error
                        (print_summary_option_ok py_repr)
                        (print_summary_option_bad py_repr)
                        l W) as Hloop
      end.
      destruct (forallb is_dict l).
      * destruct Hloop as (lines & -> & Hlen).
        eexists. cbn [sent stdout]. rewrite <- !app_assoc.
        split; [reflexivity|].
        rewrite !length_app, Hlen, list_sum_ones. cbn [List.length]. lia.
      * destruct Hloop as (e & w' & -> & He).
        exists e, w'. split; [reflexivity | exact He].
    + (* a dict *)
      destruct d' as [|[k v] d'].
      * eexists. split;
          [unfold bind, py_get_default, ret, print; rewrite Hopt;
           cbn -[str_int py_str append str_repeat];
           rewrite <- !app_assoc; reflexivity
          | reflexivity].
      * eexists _, _. split;
          [unfold bind, py_get_default, ret, print; rewrite Hopt; reflexivity
          | left; reflexivity].
  - eexists. split;
      [unfold bind, py_get_default, ret, print; rewrite Hopt;
       cbn -[str_int py_str append str_repeat];
       rewrite <- !app_assoc; reflexivity
      | reflexivity].
Qed.

Lemma print_summary_poll_ok py_repr poll w :
  poll_printable poll = true ->
  exists lines,
    print_summary_poll py_repr poll w
    = (Returned tt, mkWorld (sent w) (stdout w ++ lines)%list)
    /\ List.length lines = (6 + option_lines poll)%nat.
Proof.
  intros H. pose proof (print_summary_poll_run py_repr poll w) as Hrun.
  rewrite H in Hrun. exact Hrun.
Qed.

Lemma print_summary_poll_bad py_repr poll w :
  poll_printable poll = false ->
  exists e w',
    print_summary_poll py_repr poll w = (Raised e, w') /\ summary_error e.
Proof.
  intros H. pose proof (print_summary_poll_run py_repr poll w) as Hrun.
  rewrite H in Hrun. exact Hrun.
Qed.

(** The whole summary: it gets through exactly the lists of printable
    polls, printing the two header lines and the lines of each poll. *)
Lemma print_polls_summary_run py_repr poll polls w :
  if forallb poll_printable (poll :: polls) then
    exists lines,
      print_polls_summary py_repr (poll :: polls) w
      = (Returned tt,
         mkWorld (sent w)
           (stdout w
            ++ ("Found " ++ str_int (Z.of_nat (List.length (poll :: polls)))
                ++ " polls:")%string
               :: str_repeat "-" 50 :: lines)%list)
      /\ List.length lines
         = list_sum (map (fun p => (6 + option_lines p)%nat) (poll :: polls))
  else
    exists e w',
      print_polls_summary py_repr (poll :: polls) w = (Raised e, w')
      /\ summary_error e.
Proof.
  unfold print_polls_summary, bind, print. cbn [fst snd sent stdout].
  match goal with
  | |- context [for_each (poll :: polls) ?body ?W] =>
      pose proof (for_each_lines body poll_printable
                    (fun p => (6 + option_lines p)%nat) summary_error
                    (print_summary_poll_ok py_repr)
                    (print_summary_poll_bad py_repr)
                    (poll :: polls) W) as Hloop
  end.
  destruct (forallb poll_printable (poll :: polls)).
  - destruct Hloop as (lines & -> & Hlen).
    exists lines. cbn [sent stdout]. rewrite <- !app_assoc.
    split; [reflexivity | exact Hlen].
  - destruct Hloop as (e & w' & -> & He).
    exists e, w'. split; [reflexivity | exact He].
Qed.

(** X14: [print_polls_summary] gets through a list of polls exactly when
    every poll is a dict whose ['options'], if present, is a list of dicts
    (or an empty str or dict).  On any other list it raises an
    [AttributeError] or a [TypeError]. *)
Theorem print_polls_summary_returns_iff py_repr polls w :
  ((exists w', print_polls_summary py_repr polls w = (Returned tt, w'))
   <-> forallb poll_printable polls = true)
  /\ (forallb poll_printable polls = false ->
      exists e w',
        print_polls_summary py_repr polls w = (Raised e, w')
        /\ summary_error e).
Proof.
  destruct polls as [|poll polls].
  - split; [|discriminate].
    split; [reflexivity|]. intros _. eexists. reflexivity.
  - pose proof (print_polls_summary_run py_repr poll polls w) as Hrun.
    destruct (forallb poll_printable (poll :: polls)).
    + destruct Hrun as (lines & Heq & _).
      split; [|discriminate].
      split; [reflexivity|]. intros _. eexists. exact Heq.
    + destruct Hrun as (e & w' & Heq & He).
      split.
      * split; [|discriminate]. intros (w'' & Hw''). congruence.
      * intros _. exists e, w'. split; assumption.
Qed.

(** X15: for a non-empty list of printable polls, [print_polls_summary]
    issues no request and prints the line "Found <n> polls:", a rule, and
    then for each poll six lines plus one line per option. *)
Theorem print_polls_summary_lines py_repr poll polls w :
  forallb poll_printable (poll :: polls) = true ->
  exists lines,
    print_polls_summary py_repr (poll :: polls) w
    = (Returned tt,
       mkWorld (sent w)
         (stdout w
          ++ ("Found " ++ str_int (Z.of_nat (List.length (poll :: polls)))
              ++ " polls:")%string
             :: str_repeat "-" 50 :: lines)%list)
    /\ List.length lines
       = list_sum (map (fun p => (6 + option_lines p)%nat) (poll :: polls)).
Proof.
  intros Hok.
  pose proof (print_polls_summary_run py_repr poll polls w) as Hrun.
  rewrite Hok in Hrun. exact Hrun.
Qed.

Lemma print_polls_summary_lines_witness :
  exists lines,
    print_polls_summary (fun _ => "")
      [VDict [("id", VInt 1); ("question", VStr "Tabs or spaces?");
              ("options", VList [VDict [("id", VInt 1); ("text", VStr "Tabs")];
                                 VDict [("id", VInt 2); ("text", VStr "Spaces")]])]]
      world0
    = (Returned tt,
       mkWorld (sent world0)
         (stdout world0
          ++ "Found 1 polls:" :: str_repeat "-" 50 :: lines)%list)
    /\ List.length lines = 8%nat.
Proof.
  apply (print_polls_summary_lines (fun _ => "")
           (VDict [("id", VInt 1); ("question", VStr "Tabs or spaces?");
                   ("options",
                    VList [VDict [("id", VInt 1); ("text", VStr "Tabs")];
                           VDict [("id", VInt 2); ("text", VStr "Spaces")]])])
           [] world0).
  reflexivity.
Defined.

(** ** More on [print_poll_results] *)

Lemma filter_head_find {A} (f : A -> bool) (l : list A) x t :
  filter f l = x :: t -> find f l = Some x.
Proof.
  induction l as [|a l IH]; cbn; [discriminate|].
  destruct (f a); [intros H; injection H as -> _; reflexivity | exact IH].
Qed.

(** X16: the first option block that [print_poll_results] prints, the one
    numbered 1 right below the header, is that of an option with the
    greatest [vote_count] field of the input (a missing field counting as
    0), and among the options with that count it is the one that comes
    first in the input.  This holds for a poll with at least one option
    whose numbers Python can print ([displayable]). *)
Theorem ranking_head_is_first_maximum
        format_1f pid qn (o : OptionResult) rest w :
  displayable pid (o :: rest) ->
  exists best pct more,
    print_poll_results format_1f (mkResults pid qn (Some (o :: rest))) w
    = (Returned tt,
       mkWorld (sent w)
         (stdout w
          ++ report_header pid qn (o :: rest)
          ++ option_block format_1f 1 best pct
          ++ more)%list)
    /\ In best (o :: rest)
    /\ (forall x, In x (o :: rest) -> votes_field x <= votes_field best)
    /\ find (fun x => votes_field x =? votes_field best) (o :: rest)
       = Some best.
Proof.
  intros Hdisp.
  rewrite (print_poll_results_run format_1f pid qn o rest w Hdisp).
  destruct (sorted_reverse_is_stable_sort (o :: rest))
    as (Hperm & Hsorted & Hstable).
  destruct (sorted_reverse get_vote_count (o :: rest)) as [|best tail].
  - apply Permutation_length in Hperm. discriminate.
  - cbn [map ranking_blocks].
    eexists best, _, _. split; [reflexivity|].
    split; [apply (Permutation_in _ (Permutation_sym Hperm)); left;
            reflexivity|].
    apply StronglySorted_inv in Hsorted as [_ Hbest].
    rewrite Forall_forall in Hbest. split.
    + intros x Hx. apply (Permutation_in _ Hperm) in Hx as [<- | Hx];
        [lia | apply Hbest; exact Hx].
    + apply filter_head_find with
        (t := filter (fun x => votes_field x =? votes_field best) tail).
      rewrite <- Hstable. cbn. rewrite Z.eqb_refl. reflexivity.
Qed.

Lemma ranking_head_is_first_maximum_witness :
  exists best pct more,
    print_poll_results (fun _ => "")
      (mkResults (Some 7) (Some "Favourite colour?")
         (Some [mkOption (Some 1) (Some "red") (Some 1);
                mkOption (Some 2) (Some "green") (Some 3);
                mkOption (Some 3) (Some "blue") (Some 3)]))
      world0
    = (Returned tt,
       mkWorld (sent world0)
         (stdout world0
          ++ report_header (Some 7) (Some "Favourite colour?")
               [mkOption (Some 1) (Some "red") (Some 1);
                mkOption (Some 2) (Some "green") (Some 3);
                mkOption (Some 3) (Some "blue") (Some 3)]
          ++ option_block (fun _ => "") 1 best pct
          ++ more)%list)
    /\ In best [mkOption (Some 1) (Some "red") (Some 1);
                mkOption (Some 2) (Some "green") (Some 3);
                mkOption (Some 3) (Some "blue") (Some 3)]
    /\ (forall x,
          In x [mkOption (Some 1) (Some "red") (Some 1);
                mkOption (Some 2) (Some "green") (Some 3);
                mkOption (Some 3) (Some "blue") (Some 3)] ->
          votes_field x <= votes_field best)
    /\ find (fun x => votes_field x =? votes_field best)
         [mkOption (Some 1) (Some "red") (Some 1);
          mkOption (Some 2) (Some "green") (Some 3);
          mkOption (Some 3) (Some "blue") (Some 3)]
       = Some best.
Proof.
  apply (ranking_head_is_first_maximum (fun _ => "")
           (Some 7) (Some "Favourite colour?")
           (mkOption (Some 1) (Some "red") (Some 1))
           [mkOption (Some 2) (Some "green") (Some 3);
            mkOption (Some 3) (Some "blue") (Some 3)]
           world0).
  apply displayable_counts.
  - vm_compute. reflexivity.
  - vm_compute. reflexivity.
  - vm_compute. reflexivity.
  - repeat constructor; vm_compute; try reflexivity; discriminate.
Defined.

Lemma vote_count_le_total (l : list OptionResult) o :
  Forall (fun x => 0 <= get_vote_count x) l ->
  In o l ->
  get_vote_count o <= py_sum (map get_vote_count l).
Proof.
  induction 1 as [|x l Hx Hall IH]; intros Hin; [contradiction|].
  cbn [map]. rewrite py_sum_cons.
  assert (0 <= py_sum (map get_vote_count l)).
  { clear -Hall. induction Hall as [|y l Hy Hall IH]; cbn [map];
      [reflexivity | rewrite py_sum_cons; lia]. }
  destruct Hin as [-> | Hin]; [lia | specialize (IH Hin); lia].
Qed.

(** A count between 0 and a positive total gives a quotient of at most 1,
    which fits a float. *)
Lemma share_fits_float vote_count total_votes :
  0 <= vote_count <= total_votes -> 0 < total_votes ->
  fits_float vote_count total_votes.
Proof.
  intros Hle Hpos. unfold fits_float.
  rewrite !Z.abs_eq by lia.
  pose proof float_overflow_gt_1 as Hbig.
  revert Hbig. generalize (2 ^ 1024 - 2 ^ 970). intros k Hk. nia.
Qed.

(** X17: when no vote count is negative, the percentage computed for any
    option of the list lies between 0 and 100. *)
Theorem percentage_between_0_and_100 (results_data : list OptionResult) o w :
  Forall (fun x => 0 <= get_vote_count x) results_data ->
  In o results_data ->
  exists pct,
    percentage (get_vote_count o)
      (py_sum (map get_vote_count results_data)) w
    = (Returned pct, w)
    /\ (0 <= pct)%Q /\ (pct <= 100)%Q.
Proof.
  intros Hall Hin.
  pose proof (vote_count_le_total results_data o Hall Hin) as Hle.
  assert (Hpos : 0 <= get_vote_count o)
    by (rewrite Forall_forall in Hall; apply Hall; exact Hin).
  rewrite percentage_value
    by (intros Htot; apply share_fits_float; [split; assumption | exact Htot]).
  eexists. split; [reflexivity|].
  set (total := py_sum (map get_vote_count results_data)) in *.
  destruct (total >? 0) eqn:Htot.
  - apply Z.gtb_lt in Htot.
    destruct total as [|p|p]; try lia.
    unfold Qle, Qdiv, Qmult, Qinv, inject_Z. cbn. split; nia.
  - split; unfold Qle; cbn; lia.
Qed.

Lemma percentage_between_0_and_100_witness :
  exists pct,
    percentage
      (get_vote_count (mkOption (Some 2) (Some "green") (Some 1)))
      (py_sum (map get_vote_count
                 [mkOption (Some 1) (Some "red") (Some 2);
                  mkOption (Some 2) (Some "green") (Some 1)]))
      world0
    = (Returned pct, world0)
    /\ (0 <= pct)%Q /\ (pct <= 100)%Q.
Proof.
  apply (percentage_between_0_and_100
           [mkOption (Some 1) (Some "red") (Some 2);
            mkOption (Some 2) (Some "green") (Some 1)]
           (mkOption (Some 2) (Some "green") (Some 1)) world0).
  - repeat constructor; cbn; lia.
  - right. left. reflexivity.
Defined.

Lemma ranking_blocks_length format_1f (ranking : list OptionResult) :
  forall i (pcts : list Q),
    List.length pcts = List.length ranking ->
    List.length (ranking_blocks format_1f i ranking pcts)
    = (4 * List.length ranking)%nat.
Proof.
  induction ranking as [|o ranking IH]; intros i pcts Hlen; [reflexivity|].
  destruct pcts as [|q pcts]; [discriminate|].
  cbn [ranking_blocks]. rewrite length_app, IH by (cbn in Hlen; lia).
  cbn [option_block List.length]. lia.
Qed.

(** The report when there is no option to rank. *)
Lemma print_poll_results_no_votes format_1f pid qn res w :
  printable_field pid ->
  results_falsy (mkResults pid qn res) = false ->
  res = None \/ res = Some [] ->
  print_poll_results format_1f (mkResults pid qn res) w
  = (Returned tt,
     mkWorld (sent w)
       (stdout w
        ++ [("Poll #" ++ int_or_NA pid ++ ": " ++ str_or_NA qn)%string;
            str_repeat "=" 50;
            "No votes cast yet."])%list).
Proof.
  intros Hpid Hfalsy Hres. unfold print_poll_results. rewrite Hfalsy.
  cbn [results poll_id question].
  unfold bind at 1. rewrite (format_int_or_NA_printable _ _ Hpid).
  destruct Hres as [-> | ->]; unfold bind, print; cbn [sent stdout];
    rewrite <- !app_assoc; reflexivity.
Qed.

(** X18: on a results dict with values of the schema's types, whose poll
    id Python can write in decimal and whose options, if there are any,
    are [displayable], [print_poll_results] returns without raising and
    issues no request.  It prints the single line "No results available."
    for the empty dict; the heading, the rule of 50 [=] and
    "No votes cast yet." when the list of results is absent or empty; and
    otherwise four header lines followed by four lines per option. *)
Theorem print_poll_results_lines format_1f (r : PollResults) w :
  printable_field (poll_id r) ->
  (forall o rest,
     results r = Some (o :: rest) -> displayable (poll_id r) (o :: rest)) ->
  exists lines,
    print_poll_results format_1f r w
    = (Returned tt, mkWorld (sent w) (stdout w ++ lines)%list)
    /\ if results_falsy r then lines = ["No results available."]
       else match results r with
            | Some (o :: rest) =>
                List.length lines = (4 + 4 * List.length (o :: rest))%nat
            | _ =>
                lines
                = [("Poll #" ++ int_or_NA (poll_id r) ++ ": "
                    ++ str_or_NA (question r))%string;
                   str_repeat "=" 50;
                   "No votes cast yet."]
            end.
Proof.
  intros Hpid Hdisp.
  destruct r as [pid qn res]. cbn [poll_id question results] in *.
  destruct (results_falsy (mkResults pid qn res)) eqn:Hfalsy.
  - exists ["No results available."]. split; [|reflexivity].
    unfold print_poll_results. rewrite Hfalsy. reflexivity.
  - destruct res as [[|o rest]|].
    + eexists. split; [|reflexivity].
      apply print_poll_results_no_votes;
        [exact Hpid | exact Hfalsy | right; reflexivity].
    + eexists. split;
        [exact (print_poll_results_run format_1f pid qn o rest w
                  (Hdisp o rest eq_refl))|].
      rewrite length_app, ranking_blocks_length by apply length_map.
      rewrite <- (Permutation_length
                    (sorted_reverse_perm get_vote_count (o :: rest))).
      reflexivity.
    + eexists. split; [|reflexivity].
      apply print_poll_results_no_votes;
        [exact Hpid | exact Hfalsy | left; reflexivity].
Qed.

Lemma print_poll_results_lines_witness :
  exists lines,
    print_poll_results (fun _ => "")
      (mkResults (Some 7) (Some "Favourite colour?") (Some [])) world0
    = (Returned tt, mkWorld (sent world0) (stdout world0 ++ lines)%list)
    /\ lines = ["Poll #7: Favourite colour?";
                "==================================================";
                "No votes cast yet."].
Proof.
  apply (print_poll_results_lines (fun _ => "")
           (mkResults (Some 7) (Some "Favourite colour?") (Some [])) world0).
  - vm_compute. reflexivity.
  - intros o rest H. discriminate H.
Defined.
(** ** How much a run of the driver yields *)

Lemma continuing_page_is_full batch_size r :
  stops batch_size r = false ->
  batch_size <= Z.of_nat (List.length (page_items r)).
Proof.
  destruct r as [[[|x batch]|]|e]; cbn [stops page_items]; try discriminate.
  intros H. apply Z.ltb_ge in H. exact H.
Qed.

Lemma concat_length_lower_bound (f : nat -> list value) (n : Z) k :
  (forall i, (i < k)%nat -> n <= Z.of_nat (List.length (f i))) ->
  Z.of_nat k * n <= Z.of_nat (List.length (List.concat (map f (seq 0 k)))).
Proof.
  induction k as [|k IH]; intros Hfull; [cbn; lia|].
  rewrite seq_S, map_app, concat_app, length_app. cbn [plus map List.concat].
  rewrite app_nil_r.
  specialize (IH (fun i Hi => Hfull i (Nat.lt_lt_succ_r _ _ Hi))).
  specialize (Hfull k (Nat.lt_succ_diag_r k)). lia.
Qed.

(** X19: every fetch of a run but the last returned at least [batch_size]
    polls, all of which are kept: a run that issued [n] requests returns
    at least [(n - 1) * batch_size] polls. *)
Theorem fetch_all_polls_result_length_lower_bound
        net base_url batch_size w fuel res w' :
  fetch_all_polls fuel net base_url batch_size w = Some (res, w') ->
  (Z.of_nat (List.length (sent w') - List.length (sent w)) - 1) * batch_size
  <= Z.of_nat (List.length res).
Proof.
  intros Hrun. unfold fetch_all_polls in Hrun.
  pose proof (loop_characterised net base_url batch_size w fuel 0 []) as Hc.
  pose proof (loop_result net base_url batch_size w fuel 0 [] res w') as Hr.
  rewrite after_fetches_0 in Hc, Hr. cbn [Z.of_nat Z.mul] in Hc, Hr.
  rewrite Hrun in Hc.
  destruct Hc as (k & _ & _ & Hbefore & Hsent).
  destruct (Hr Hrun) as (k' & _ & Hsent' & Hres & _).
  assert (Hlen : forall j,
             List.length (sent (after_fetches base_url batch_size w j))
             = (List.length (sent w) + j)%nat).
  { intros j. unfold after_fetches, fetch_requests. cbn [sent].
    rewrite length_app, length_map, length_seq. reflexivity. }
  assert (k' = k).
  { pose proof (Hlen (S k)) as H1. pose proof (Hlen (S k')) as H2.
    rewrite <- Hsent in H1. rewrite <- Hsent' in H2. lia. }
  subst k'. rewrite Hsent, Hlen.
  replace (List.length (sent w) + S k - List.length (sent w))%nat
    with (S k) by lia.
  rewrite Hres. cbn [app]. rewrite Nat.sub_0_r, seq_S, map_app, concat_app,
    length_app.
  pose proof (concat_length_lower_bound
                (fun i => page_items (nth_page net base_url batch_size w i))
                batch_size k) as Hbound.
  assert (Hfull : forall i, (i < k)%nat ->
            batch_size
            <= Z.of_nat (List.length
                 (page_items (nth_page net base_url batch_size w i)))).
  { intros i Hi. apply continuing_page_is_full. apply Hbefore. lia. }
  specialize (Hbound Hfull). lia.
Qed.

Lemma fetch_all_polls_result_length_lower_bound_witness :
  (Z.of_nat (List.length [polls_request 0 10 "http://localhost:8000";
                          polls_request 10 10 "http://localhost:8000"]
             - List.length (sent world0)) - 1) * 10
  <= Z.of_nat (List.length (map VInt (map Z.of_nat (seq 1 13)))).
Proof.
  apply (fetch_all_polls_result_length_lower_bound
           (dataset_server (map VInt (map Z.of_nat (seq 1 13))))
           "http://localhost:8000" 10 world0 2
           (map VInt (map Z.of_nat (seq 1 13)))
           (mkWorld [polls_request 0 10 "http://localhost:8000";
                     polls_request 10 10 "http://localhost:8000"] [])).
  reflexivity.
Defined.
